(** * DataMaster-MCP: database connectivity and configuration layer

    A shallow embedding of the configuration store
    ([superdataanalysis_mcp/config/config_manager.py], [ConfigManager]),
    the API configuration store's save routine
    ([config/api_config_manager.py]), the database manager
    ([config/database_manager.py], [DatabaseManager]) and the
    temporary-connection flows of [datamaster_mcp/main.py].

    Python values read from JSON are modelled by [jv]; a Python [dict] is
    an association list in insertion order.  Exceptions are the
    constructors of [exn]; code that can raise runs in the state/exception
    monad [M] whose state is the trace of connection events. *)

From Stdlib Require Import String Ascii List Bool ZArith Lia.
Import ListNotations.
Open Scope string_scope.
Set Warnings "-register-all".

(* ------------------------------------------------------------------ *)
(** ** JSON values and Python dictionaries *)

Inductive jv : Type :=
| JNull
| JBool (b : bool)
| JNum (z : Z)
| JStr (s : string)
| JList (l : list jv)
| JObj (d : list (string * jv)).

Definition dict := list (string * jv).

(** Python dictionaries keyed by strings, over any value type. *)
Section Dicts.
Context {V : Type}.

(** [d.get(k)] *)
Fixpoint a_get (k : string) (d : list (string * V)) : option V :=
  match d with
  | [] => None
  | (k', v) :: d' => if String.eqb k k' then Some v else a_get k d'
  end.

(** [d.get(k, default)] *)
Definition a_get_d (k : string) (dflt : V) (d : list (string * V)) : V :=
  match a_get k d with Some v => v | None => dflt end.

(** [k in d] *)
Definition a_mem (k : string) (d : list (string * V)) : bool :=
  match a_get k d with Some _ => true | None => false end.

(** [d[k] = v]: an existing key keeps its position, a new key is appended. *)
Fixpoint a_set (k : string) (v : V) (d : list (string * V)) : list (string * V) :=
  match d with
  | [] => [(k, v)]
  | (k', v') :: d' =>
      if String.eqb k k' then (k', v) :: d' else (k', v') :: a_set k v d'
  end.

(** [del d[k]]: keys of a Python dict are unique, so dropping every
    entry with key [k] removes exactly the one entry. *)
Definition a_del (k : string) (d : list (string * V)) : list (string * V) :=
  filter (fun kv => negb (String.eqb k (fst kv))) d.

End Dicts.

(** Python truthiness of a JSON value: [bool(v)]. *)
Definition truthy (v : jv) : bool :=
  match v with
  | JNull => false
  | JBool b => b
  | JNum z => negb (Z.eqb z 0)
  | JStr s => negb (String.eqb s "")
  | JList l => match l with [] => false | _ => true end
  | JObj d => match d with [] => false | _ => true end
  end.

(** [a or b] on values *)
Definition py_or (a b : jv) : jv := if truthy a then a else b.

(* ------------------------------------------------------------------ *)
(** ** Strings: [str.upper], [str.strip], [in], [startswith] *)

Definition ascii_upper (c : ascii) : ascii :=
  let n := nat_of_ascii c in
  if ((97 <=? n) && (n <=? 122))%nat then ascii_of_nat (n - 32)%nat else c.

Fixpoint str_upper (s : string) : string :=
  match s with
  | EmptyString => EmptyString
  | String c s' => String (ascii_upper c) (str_upper s')
  end.

(** ASCII characters for which Python's [str.isspace] holds:
    [\t \n \v \f \r], the separators [\x1c]-[\x1f], and space. *)
Definition py_space (c : ascii) : bool :=
  let n := nat_of_ascii c in
  (((9 <=? n) && (n <=? 13)) || ((28 <=? n) && (n <=? 32)))%nat.

Fixpoint lstrip (s : string) : string :=
  match s with
  | EmptyString => EmptyString
  | String c s' => if py_space c then lstrip s' else s
  end.

Fixpoint str_rev (s : string) : string :=
  match s with
  | EmptyString => EmptyString
  | String c s' => str_rev s' ++ String c EmptyString
  end.

Definition str_strip (s : string) : string := str_rev (lstrip (str_rev (lstrip s))).

(** [s.startswith(p)] *)
Fixpoint str_prefix (p s : string) : bool :=
  match p, s with
  | EmptyString, _ => true
  | String _ _, EmptyString => false
  | String a p', String b s' => Ascii.eqb a b && str_prefix p' s'
  end.

(** [k in s] for strings: [k] occurs at some position of [s]
    (the empty string occurs everywhere). *)
Fixpoint str_contains (k s : string) : bool :=
  str_prefix k s ||
  match s with
  | EmptyString => false
  | String _ s' => str_contains k s'
  end.

(* ------------------------------------------------------------------ *)
(** ** Exceptions and the execution monad *)

(** Exception classes raised on the modelled paths; all of them are
    subclasses of [Exception], so [except Exception] catches them. *)
Inductive exn : Type :=
| ValueError (msg : string)
| KeyError (key : string)
| TypeError (msg : string)
| ImportError (msg : string)
| FileNotFoundError (msg : string)
| OSError (msg : string)
| DriverError (msg : string).

(** [str(e)] *)
Definition exn_str (e : exn) : string :=
  match e with
  | ValueError m | TypeError m | ImportError m | FileNotFoundError m
  | OSError m | DriverError m => m
  | KeyError k => "'" ++ k ++ "'"
  end.

Inductive res (A : Type) : Type :=
| Ok (a : A)
| Raise (e : exn).
Arguments Ok {A} a.
Arguments Raise {A} e.

(** Observable connection events: a driver handed out a connection, and
    [close()] was invoked on it. *)
Record conn : Type := mkConn { conn_driver : string; conn_args : dict }.

Inductive event : Type :=
| EvOpen (c : conn)
| EvClose (c : conn).

Definition M (A : Type) : Type := list event -> res A * list event.

Definition ret {A} (a : A) : M A := fun tr => (Ok a, tr).
Definition raise {A} (e : exn) : M A := fun tr => (Raise e, tr).
Definition bind {A B} (m : M A) (k : A -> M B) : M B :=
  fun tr => match m tr with
            | (Ok a, tr') => k a tr'
            | (Raise e, tr') => (Raise e, tr')
            end.
Definition emit (ev : event) : M unit := fun tr => (Ok tt, app tr [ev]).
(** [try: m except Exception as e: h(e)] *)
Definition try_except {A} (m : M A) (h : exn -> M A) : M A :=
  fun tr => match m tr with
            | (Ok a, tr') => (Ok a, tr')
            | (Raise e, tr') => h e tr'
            end.
(** lift a pure result *)
Definition lift {A} (r : res A) : M A := fun tr => (r, tr).

Notation "x <- m ;; k" := (bind m (fun x => k))
  (at level 61, m at next level, right associativity).
Notation "m ;;; k" := (bind m (fun _ => k))
  (at level 61, right associativity).

(** [d[k]] on a dict: [KeyError] when absent. *)
Definition dict_index (k : string) (d : dict) : M jv :=
  match a_get k d with Some v => ret v | None => raise (KeyError k) end.

(** [v.get(...)] needs a dict: other values raise [AttributeError],
    modelled as a [TypeError]. *)
Definition as_dict (v : jv) : M dict :=
  match v with JObj d => ret d | _ => raise (TypeError "object has no attribute 'get'") end.

(** [sep.join(l)] *)
Fixpoint str_join (sep : string) (l : list string) : string :=
  match l with
  | [] => ""
  | [x] => x
  | x :: l' => x ++ sep ++ str_join sep l'
  end.

(** *** POSIX paths ([pathlib.PurePosixPath]) *)

(** [s.split(sep)] for a one-character separator *)
Fixpoint split_sep (sep : ascii) (s : string) : list string :=
  match s with
  | EmptyString => [""]
  | String c s' =>
      if Ascii.eqb c sep then "" :: split_sep sep s'
      else match split_sep sep s' with
           | x :: xs => String c x :: xs
           | [] => [String c ""]
           end
  end.

(** The root found by [posixpath.splitroot]: exactly two leading slashes
    are kept, one or three and more give ["/"]. *)
Definition path_root (p : string) : string :=
  match p with
  | String "/" (String "/" (String "/" _)) => "/"
  | String "/" (String "/" _) => "//"
  | String "/" _ => "/"
  | _ => ""
  end.

(** The parsed parts after the root: empty and ["."] components are
    dropped, [".."] is kept. *)
Definition path_parts (p : string) : list string :=
  filter (fun x => negb (String.eqb x "" || String.eqb x ".")) (split_sep "/" p).

(** [str(Path(p))] *)
Definition path_str (p : string) : string :=
  match path_root p, path_parts p with
  | "", [] => "."
  | r, parts => r ++ str_join "/" parts
  end.

(** [Path(p).name]: the last part, [""] when there is none. *)
Definition path_name (p : string) : string := last (path_parts p) "".

(** [os.path.join(a, b)] on POSIX *)
Definition posix_join (a b : string) : string :=
  if str_prefix "/" b then b
  else match a with
       | EmptyString => b
       | _ => if str_prefix "/" (str_rev a) then a ++ b else a ++ "/" ++ b
       end.

(** [str(Path(p).absolute())] in working directory [cwd]
    ([os.getcwd()], an absolute normalised path): an absolute path is
    returned as it is, a relative one is joined to [cwd]. *)
Definition path_absolute (cwd p : string) : string :=
  if str_prefix "/" p then path_str p else path_str (posix_join cwd p).

(** [str(v)] for the values that appear in messages and f-strings. *)
Fixpoint nat_digits (fuel n : nat) (acc : string) : string :=
  match fuel with
  | O => acc
  | S fuel' =>
      let d := String (ascii_of_nat (48 + n mod 10)) EmptyString in
      if (n <? 10)%nat then d ++ acc else nat_digits fuel' (n / 10) (d ++ acc)
  end.

Definition z_str (z : Z) : string :=
  let n := Z.abs_nat z in
  (if (z <? 0)%Z then "-" else "") ++ nat_digits (S n) n "".

(** Containers are rendered by a placeholder: only scalars reach the
    messages used by the claims below. *)
Definition py_str (v : jv) : string :=
  match v with
  | JNull => "None"
  | JBool true => "True"
  | JBool false => "False"
  | JNum z => z_str z
  | JStr s => s
  | JList _ => "[...]"
  | JObj _ => "{...}"
  end.

(* ------------------------------------------------------------------ *)
(** ** [ConfigManager] (superdataanalysis_mcp/config/config_manager.py) *)

(** The loaded document [config_data], for documents whose ["databases"]
    entry is a dict of dicts.  [security] is [None] when the document has
    no ["security"] key (then [get_security_config] returns its default);
    [_load_config] installs [Some []] when the file is missing. *)
Record cm_state : Type := mkCM {
  databases : list (string * dict);
  security : option dict
}.

(** [get_database_config]: the stored dict (a copy) when present and its
    ["enabled"] entry, default [True], is truthy. *)
Definition get_database_config (st : cm_state) (name : string) : option dict :=
  match a_get name (databases st) with
  | None => None
  | Some cfg => if truthy (a_get_d "enabled" (JBool true) cfg) then Some cfg else None
  end.

(** The summary built by [list_databases] for one config. *)
Definition summary (cfg : dict) : dict :=
  [("type", a_get_d "type" JNull cfg);
   ("description", a_get_d "description" (JStr "") cfg);
   ("enabled", a_get_d "enabled" (JBool true) cfg);
   ("host", a_get_d "host" (JStr "") cfg);
   ("database", a_get_d "database" (JStr "") cfg);
   ("file_path", a_get_d "file_path" (JStr "") cfg);
   ("is_temporary", a_get_d "_is_temporary" (JBool false) cfg);
   ("created_at", a_get_d "_created_at" JNull cfg)].

(** [list_databases]: [result[name] = {...}] for each stored config. *)
Definition list_databases (st : cm_state) : list (string * dict) :=
  fold_left (fun r nc => a_set (fst nc) (summary (snd nc)) r) (databases st) [].

Definition default_security : dict :=
  [("allow_write_operations", JBool false);
   ("allowed_schemas", JList []);
   ("blocked_keywords",
     JList [JStr "DROP"; JStr "DELETE"; JStr "UPDATE"; JStr "INSERT";
            JStr "ALTER"; JStr "CREATE"; JStr "TRUNCATE"])].

(** [get_security_config] *)
Definition get_security_config (st : cm_state) : dict :=
  match security st with Some d => d | None => default_security end.

Definition required_fields (t : string) : option (list string) :=
  if String.eqb t "mysql" then Some ["host"; "database"; "password"]
  else if String.eqb t "postgresql" then Some ["host"; "database"; "password"]
  else if String.eqb t "mongodb" then Some ["host"; "database"]
  else if String.eqb t "sqlite" then Some ["file_path"]
  else None.

Fixpoint first_missing (fs : list string) (cfg : dict) : option string :=
  match fs with
  | [] => None
  | f :: fs' => if truthy (a_get_d f JNull cfg) then first_missing fs' cfg else Some f
  end.

Definition has_username (cfg : dict) : bool :=
  truthy (py_or (a_get_d "username" JNull cfg) (a_get_d "user" JNull cfg)).

(** [validate_database_config] *)
Definition validate_database_config (st : cm_state) (name : string) : bool * string :=
  match get_database_config st name with
  | None | Some [] => (false, "数据库配置不存在或已禁用: " ++ name)
  | Some cfg =>
      let t := a_get_d "type" JNull cfg in
      if negb (truthy t) then (false, "缺少数据库类型配置") else
      let ts := py_str t in
      match t, required_fields ts with
      | JStr _, Some fs =>
          if ((String.eqb ts "mysql" || String.eqb ts "postgresql") && negb (has_username cfg))%bool
          then (false, "缺少必需的配置字段: username (或 user)")
          else match first_missing fs cfg with
               | Some f => (false, "缺少必需的配置字段: " ++ f)
               | None => (true, "配置验证通过")
               end
      | _, _ => (false, "不支持的数据库类型: " ++ ts)
      end
  end.

(** Persistence through [_save_config] is abstracted by [save]: whether
    writing the document [st] completes without raising.  The on-disk
    steps of the two save routines are modelled in module [Durability]. *)
Section Store.
Variable save : cm_state -> bool.

(** [add_database_config]: the in-memory insertion happens before the
    save; a failing save makes the method return [False]. *)
Definition add_database_config (st : cm_state) (name : string) (cfg : dict)
  : bool * cm_state :=
  let st' := mkCM (a_set name cfg (databases st)) (security st) in
  (save st', st').

(** [remove_database_config]: deletion before the save, as above. *)
Definition remove_database_config (st : cm_state) (name : string)
  : bool * cm_state :=
  if a_mem name (databases st) then
    let st' := mkCM (a_del name (databases st)) (security st) in
    (save st', st')
  else (false, st).

Definition is_temp_config (cfg : dict) : bool :=
  truthy (a_get_d "_is_temporary" (JBool false) cfg).

Fixpoint remove_all (names : list string) (st : cm_state) (removed : nat)
  : nat * cm_state :=
  match names with
  | [] => (removed, st)
  | n :: ns =>
      let (ok, st') := remove_database_config st n in
      remove_all ns st' (if ok then S removed else removed)
  end.

(** [cleanup_temporary_configs] *)
Definition cleanup_temporary_configs (st : cm_state) : (bool * string) * cm_state :=
  let temps := map fst (filter (fun nc => is_temp_config (snd nc)) (databases st)) in
  match temps with
  | [] => ((true, "没有找到临时配置"), st)
  | _ =>
      let (cnt, st') := remove_all temps st 0 in
      ((true, "成功清理 " ++ z_str (Z.of_nat cnt) ++ " 个临时配置: " ++ str_join ", " temps), st')
  end.

End Store.

(* ------------------------------------------------------------------ *)
(** ** [DatabaseManager] (config/database_manager.py) *)

(** The result dicts of [execute_query]. *)
Record qresult : Type := mkQ {
  q_success : bool;
  q_error : option string;
  q_data : list jv;
  q_row_count : option Z;
  q_affected : option Z
}.

Definition q_fail (msg : string) : qresult := mkQ false (Some msg) [] None None.

(** The environment the manager runs in: which client libraries import,
    which files exist ([w_exists s] is [Path(s).exists()]), and how the
    drivers answer.  [w_connect d kw] is
    the outcome of [d.connect(kw...)] (for MongoDB, [MongoClient(kw...)]);
    [w_execute c q params] runs [cursor.execute] and fetches rows and
    [rowcount]; [w_mongo c q] is the result dict of the MongoDB command
    handlers ([_handle_mongodb_show_command] and its siblings). *)
Record world : Type := mkWorld {
  w_pymysql : bool;
  w_mysql_connector : bool;
  w_psycopg2 : bool;
  w_pymongo : bool;
  w_exists : string -> bool;
  w_connect : string -> dict -> res unit;
  w_execute : conn -> string -> list jv -> res (list jv * Z);
  w_server_info : conn -> res string;
  w_close : conn -> res unit;
  w_mongo : conn -> string -> res qresult
}.

Section Manager.
Variable w : world.
Variable st : cm_state.

(** [MYSQL_AVAILABLE]: some MySQL driver imports. *)
Definition mysql_available : bool := w_pymysql w || w_mysql_connector w.

(** [get_preferred_mysql_driver]: pymysql before mysql.connector. *)
Definition preferred_mysql_driver : string :=
  if w_pymysql w then "pymysql" else "mysql.connector".

(** [POSTGRESQL_AVAILABLE]: psycopg2 (psycopg2-binary is the same module;
    asyncpg is excluded as asynchronous). *)
Definition postgresql_available : bool := w_psycopg2 w.

(** A driver hands out a connection, or raises. *)
Definition driver_connect (d : string) (kw : dict) : M conn :=
  match w_connect w d kw with
  | Ok _ => let c := mkConn d kw in emit (EvOpen c) ;;; ret c
  | Raise e => raise e
  end.

Definition get_username (cfg : dict) : M jv :=
  let u := py_or (a_get_d "username" JNull cfg) (a_get_d "user" JNull cfg) in
  if truthy u then ret u
  else raise (ValueError "缺少必需的配置字段: username (或 user)").

(** [_get_mysql_connection] *)
Definition get_mysql_connection (cfg : dict) : M conn :=
  if negb mysql_available then raise (ImportError "MySQL 驱动未安装或不可用")
  else
    let d := preferred_mysql_driver in
    user <- get_username cfg ;;
    host <- dict_index "host" cfg ;;
    password <- dict_index "password" cfg ;;
    database <- dict_index "database" cfg ;;
    let common :=
      [("host", host); ("port", a_get_d "port" (JNum 3306) cfg); ("user", user);
       ("password", password); ("database", database);
       ("charset", a_get_d "charset" (JStr "utf8mb4") cfg)] in
    if String.eqb d "pymysql"
    then driver_connect d (common ++ [("cursorclass", JStr "DictCursor")])%list
    else driver_connect d (common ++ [("autocommit", JBool true)])%list.

(** [_get_postgresql_connection] *)
Definition get_postgresql_connection (cfg : dict) : M conn :=
  if negb postgresql_available then raise (ImportError "PostgreSQL驱动未安装或不可用")
  else
    user <- get_username cfg ;;
    host <- dict_index "host" cfg ;;
    password <- dict_index "password" cfg ;;
    database <- dict_index "database" cfg ;;
    driver_connect "psycopg2"
      [("host", host); ("port", a_get_d "port" (JNum 5432) cfg); ("user", user);
       ("password", password); ("database", database)].

(** The URI built by the MongoDB constructor and test. *)
Definition mongo_uri (cfg : dict) : M string :=
  if (truthy (a_get_d "username" JNull cfg) && truthy (a_get_d "password" JNull cfg))%bool
  then
    u <- dict_index "username" cfg ;; p <- dict_index "password" cfg ;;
    h <- dict_index "host" cfg ;; db <- dict_index "database" cfg ;;
    let base := "mongodb://" ++ py_str u ++ ":" ++ py_str p ++ "@" ++ py_str h ++ ":"
                ++ py_str (a_get_d "port" (JNum 27017) cfg) ++ "/" ++ py_str db in
    let src := a_get_d "auth_source" JNull cfg in
    ret (if truthy src then base ++ "?authSource=" ++ py_str src else base)
  else
    h <- dict_index "host" cfg ;; db <- dict_index "database" cfg ;;
    ret ("mongodb://" ++ py_str h ++ ":" ++ py_str (a_get_d "port" (JNum 27017) cfg)
         ++ "/" ++ py_str db).

(** [client[name]] of pymongo: [Database.__init__] refuses a name that
    is not a [str] ([TypeError]) and [_check_name] one that is empty or
    holds a space, ['.'], ['$'], ['/'], a backslash, NUL or a double quote
    ([InvalidName]). *)
Definition dq : ascii := "034"%char.

(** The characters [_check_name] tests, in its order, with their
    [repr]. *)
Definition mongo_invalid_chars : list (ascii * string) :=
  [(" "%char, "' '"); ("."%char, "'.'"); ("$"%char, "'$'"); ("/"%char, "'/'");
   ("\"%char, "'\\'"); (Ascii.zero, "'\x00'"); (dq, String "'" (String dq "'"))].

Definition str_has_char (c : ascii) (s : string) : bool :=
  str_contains (String c EmptyString) s.

Definition mongo_get_database (v : jv) : M unit :=
  match v with
  | JStr s =>
      if String.eqb s "" then raise (DriverError "database name cannot be the empty string")
      else match find (fun cr => str_has_char (fst cr) s) mongo_invalid_chars with
           | Some (_, r) => raise (DriverError ("database names cannot contain the character " ++ r))
           | None => ret tt
           end
  | _ => raise (TypeError "name must be an instance of str")
  end.

(** [_get_mongodb_connection]: [MongoClient(uri)] wrapped in
    [MongoDBConnection] together with [client[config['database']]]; when
    that subscript raises, the client already created is returned to no
    one and never closed. *)
Definition get_mongodb_connection (cfg : dict) : M conn :=
  if negb (w_pymongo w) then raise (ImportError "MongoDB 驱动未安装，请运行: pip install pymongo")
  else
    uri <- mongo_uri cfg ;;
    c <- driver_connect "pymongo" [("host", JStr uri)] ;;
    db <- dict_index "database" cfg ;;
    mongo_get_database db ;;;
    ret c.

(** [Path(x)] accepts strings only. *)
Definition as_path (v : jv) : M string :=
  match v with
  | JStr s => ret s
  | _ => raise (TypeError "expected str, bytes or os.PathLike object")
  end.

(** [_get_sqlite_connection] *)
Definition get_sqlite_connection (cfg : dict) : M conn :=
  fp <- dict_index "file_path" cfg ;;
  p <- as_path fp ;;
  if negb (w_exists w p) then raise (FileNotFoundError ("SQLite 文件不存在: " ++ path_str p))
  else driver_connect "sqlite3" [("database", JStr (path_str p))].

(** [db_type == s] *)
Definition is_type (t : jv) (s : string) : bool :=
  match t with JStr x => String.eqb x s | _ => false end.

(** The dispatch on ["type"] shared by [get_connection]. *)
Definition open_backend (cfg : dict) : M conn :=
  t <- dict_index "type" cfg ;;
  if is_type t "mysql" then get_mysql_connection cfg
  else if is_type t "postgresql" then get_postgresql_connection cfg
  else if is_type t "mongodb" then get_mongodb_connection cfg
  else if is_type t "sqlite" then get_sqlite_connection cfg
  else raise (ValueError ("不支持的数据库类型: " ++ py_str t)).

(** The body of [get_connection] up to its [yield]. *)
Definition acquire (name : string) : M conn :=
  match get_database_config st name with
  | None | Some [] => raise (ValueError ("数据库配置不存在: " ++ name))
  | Some cfg => open_backend cfg
  end.

End Manager.

Section Manager_ops.
Variable w : world.
Variable st : cm_state.

(** The connection objects handed out (sqlite3, pymysql, mysql.connector
    and psycopg2 connections, and the [MongoDBConnection] wrapper) define
    neither [__bool__] nor [__len__], so [if connection:] holds for each. *)
Definition conn_truthy (c : conn) : bool := true.

(** The [finally] clause of [get_connection]: [close()] is invoked on a
    truthy connection and an exception it raises is logged and dropped. *)
Definition release (c : conn) (tr : list event) : list event :=
  if conn_truthy c then app tr [EvClose c] else tr.

(** [get_connection] as used by [with get_connection(name) as c: fn(c)].
    A failure before the [yield] leaves [connection = None] (nothing to
    close) and re-raises; otherwise the body runs and [finally] releases
    the connection whether the body returned or raised. *)
Definition get_connection {A} (name : string) (fn : conn -> M A) : M A :=
  fun tr =>
    match acquire w st name tr with
    | (Raise e, tr1) => (Raise e, tr1)
    | (Ok c, tr1) => let (r, tr2) := fn c tr1 in (r, release c tr2)
    end.

Definition is_select (q : string) : bool := str_prefix "SELECT" (str_upper (str_strip q)).

(** [_execute_sql_query] (cursor branch and SQLite branch alike; rows
    from the driver are already JSON-safe values in this model). *)
Definition execute_sql_query (name q : string) (params : list jv) : M qresult :=
  get_connection name (fun c =>
    r <- lift (w_execute w c q params) ;;
    let (rows, rowcount) := r in
    if is_select q
    then ret (mkQ true None rows (Some (Z.of_nat (length rows))) None)
    else ret (mkQ true None [] None (Some rowcount))).

(** [_execute_mongodb_query] *)
Definition execute_mongodb_query (name q : string) : M qresult :=
  try_except
    (get_connection name (fun db => lift (w_mongo w db (str_strip q))))
    (fun e => ret (q_fail ("MongoDB 查询失败: " ++ exn_str e))).

(** [for keyword in blocked_keywords]: what a [for] loop iterates. *)
Definition py_iter (v : jv) : M (list jv) :=
  match v with
  | JList l => ret l
  | JStr s => ret (map (fun c => JStr (String c EmptyString)) (list_ascii_of_string s))
  | JObj d => ret (map (fun kv => JStr (fst kv)) d)
  | _ => raise (TypeError "object is not iterable")
  end.

(** The keyword loop: the first keyword with [keyword in query_upper]. *)
Fixpoint scan_keywords (kws : list jv) (qu : string) : M (option string) :=
  match kws with
  | [] => ret None
  | JStr k :: ks => if str_contains k qu then ret (Some k) else scan_keywords ks qu
  | _ :: _ => raise (TypeError "'in <string>' requires string as left operand")
  end.

Definition blocked_msg (k : string) : string := "查询包含被禁止的关键字: " ++ k.
Definition missing_msg (name : string) : string := "数据库配置不存在: " ++ name.

(** [execute_query] after the security check: resolve and dispatch. *)
Definition execute_resolved (name q : string) (params : list jv) : M qresult :=
  match get_database_config st name with
  | None | Some [] => ret (q_fail (missing_msg name))
  | Some cfg =>
      t <- dict_index "type" cfg ;;
      if (is_type t "mysql" || is_type t "postgresql" || is_type t "sqlite")%bool
      then execute_sql_query name q params
      else if is_type t "mongodb" then execute_mongodb_query name q
      else ret (q_fail ("不支持的数据库类型: " ++ py_str t))
  end.

(** [execute_query] *)
Definition execute_query (name q : string) (params : list jv) : M qresult :=
  try_except
    (let sec := get_security_config st in
     if negb (truthy (a_get_d "allow_write_operations" (JBool false) sec)) then
       kws <- py_iter (a_get_d "blocked_keywords" (JList []) sec) ;;
       hit <- scan_keywords kws (str_strip (str_upper q)) ;;
       match hit with
       | Some k => ret (q_fail (blocked_msg k))
       | None => execute_resolved name q params
       end
     else execute_resolved name q params)
    (fun e => ret (q_fail (exn_str e))).

End Manager_ops.

Section Manager_tests.
Variable w : world.
Variable st : cm_state.

Definition close_conn (c : conn) : M unit := emit (EvClose c) ;;; lift (w_close w c).

(** The version probe of the MySQL and PostgreSQL tests. *)
Definition probe_version (c : conn) (q : string) : M string :=
  r <- lift (w_execute w c q []) ;;
  match fst r with
  | v :: _ => ret (py_str v)
  | [] => raise (TypeError "'NoneType' object is not subscriptable")
  end.

(** [_test_mysql_connection] *)
Definition test_mysql_connection (cfg : dict) : M (bool * string) :=
  if negb (mysql_available w) then ret (false, "MySQL 驱动未安装或不可用")
  else
    let d := preferred_mysql_driver w in
    if negb (has_username cfg) then ret (false, "缺少必需的配置字段: username (或 user)")
    else try_except
      (host <- dict_index "host" cfg ;;
       password <- dict_index "password" cfg ;;
       database <- dict_index "database" cfg ;;
       let user := py_or (a_get_d "username" JNull cfg) (a_get_d "user" JNull cfg) in
       let common :=
         [("host", host); ("port", a_get_d "port" (JNum 3306) cfg); ("user", user);
          ("password", password); ("database", database);
          ("charset", a_get_d "charset" (JStr "utf8mb4") cfg)] in
       c <- driver_connect w d
              (common ++ [(if String.eqb d "pymysql" then "connect_timeout"
                           else "connection_timeout", JNum 10)])%list ;;
       v <- probe_version c "SELECT VERSION()" ;;
       close_conn c ;;;
       ret (true, "连接成功 (使用" ++ d ++ ")，MySQL版本: " ++ v))
      (fun e => ret (false, "连接失败 (使用" ++ d ++ "): " ++ exn_str e)).

(** [_test_postgresql_connection] *)
Definition test_postgresql_connection (cfg : dict) : M (bool * string) :=
  if negb (postgresql_available w) then ret (false, "PostgreSQL驱动未安装或不可用")
  else if negb (has_username cfg) then ret (false, "缺少必需的配置字段: username (或 user)")
  else try_except
    (host <- dict_index "host" cfg ;;
     password <- dict_index "password" cfg ;;
     database <- dict_index "database" cfg ;;
     let user := py_or (a_get_d "username" JNull cfg) (a_get_d "user" JNull cfg) in
     c <- driver_connect w "psycopg2"
            [("host", host); ("port", a_get_d "port" (JNum 5432) cfg); ("user", user);
             ("password", password); ("database", database);
             ("connect_timeout", JNum 10)] ;;
     v <- probe_version c "SELECT version()" ;;
     close_conn c ;;;
     ret (true, "连接成功，使用驱动: psycopg2，数据库版本: " ++ v))
    (fun e => ret (false, "连接失败 (使用驱动: psycopg2): " ++ exn_str e)).

(** [_test_mongodb_connection] *)
Definition test_mongodb_connection (cfg : dict) : M (bool * string) :=
  if negb (w_pymongo w) then ret (false, "MongoDB 驱动未安装，请运行: pip install pymongo")
  else try_except
    (uri <- mongo_uri cfg ;;
     c <- driver_connect w "pymongo"
            [("host", JStr uri); ("serverSelectionTimeoutMS", JNum 10000)] ;;
     _ <- lift (w_server_info w c) ;;
     close_conn c ;;;
     ret (true, "MongoDB 连接测试成功"))
    (fun e => ret (false, "MongoDB 连接失败: " ++ exn_str e)).

(** [_test_sqlite_connection] *)
Definition test_sqlite_connection (cfg : dict) : M (bool * string) :=
  try_except
    (fp <- dict_index "file_path" cfg ;;
     p <- as_path fp ;;
     if negb (w_exists w p) then ret (false, "SQLite 文件不存在: " ++ path_str p)
     else
       c <- driver_connect w "sqlite3" [("database", JStr (path_str p)); ("timeout", JNum 10)] ;;
       close_conn c ;;;
       ret (true, "SQLite 连接测试成功"))
    (fun e => ret (false, "SQLite 连接失败: " ++ exn_str e)).

(** [test_connection] *)
Definition test_connection (name : string) : M (bool * string) :=
  try_except
    (let (ok, msg) := validate_database_config st name in
     if negb ok then ret (false, msg)
     else match get_database_config st name with
          | None => raise (TypeError "'NoneType' object is not subscriptable")
          | Some cfg =>
              t <- dict_index "type" cfg ;;
              if is_type t "mysql" then test_mysql_connection cfg
              else if is_type t "postgresql" then test_postgresql_connection cfg
              else if is_type t "mongodb" then test_mongodb_connection cfg
              else if is_type t "sqlite" then test_sqlite_connection cfg
              else ret (false, "不支持的数据库类型: " ++ py_str t)
          end)
    (fun e => ret (false, "连接测试失败: " ++ exn_str e)).

End Manager_tests.

Section Tables.
Variable w : world.
Variable st : cm_state.

(** [list(row.values())[0]] for dict rows, [row[0]] otherwise. *)
Definition first_cell (row : jv) : M jv :=
  match row with
  | JObj ((_, v) :: _) | JList (v :: _) => ret v
  | _ => raise (TypeError "list index out of range")
  end.

Fixpoint map_m {A B} (f : A -> M B) (l : list A) : M (list B) :=
  match l with
  | [] => ret []
  | x :: xs => y <- f x ;; ys <- map_m f xs ;; ret (y :: ys)
  end.

Definition tables_of (r : qresult) : M (list jv) :=
  if q_success r then map_m first_cell (q_data r) else ret [].

(** [get_table_list]; every exception yields [[]].  The MongoDB branch
    lists collections through the command handler. *)
Definition get_table_list (name : string) : M (list jv) :=
  try_except
    (match get_database_config st name with
     | None | Some [] => ret []
     | Some cfg =>
         t <- dict_index "type" cfg ;;
         if is_type t "mysql" then
           r <- execute_query w st name
                  ("SELECT TABLE_NAME FROM INFORMATION_SCHEMA.TABLES WHERE TABLE_SCHEMA = '"
                   ++ py_str (a_get_d "database" (JStr "mysql") cfg) ++ "'") [] ;;
           tables_of r
         else if is_type t "postgresql" then
           r <- execute_query w st name
                  "SELECT table_name FROM information_schema.tables WHERE table_schema = 'public'" [] ;;
           tables_of r
         else if is_type t "sqlite" then
           r <- execute_query w st name "SELECT name FROM sqlite_master WHERE type='table'" [] ;;
           tables_of r
         else if is_type t "mongodb" then
           r <- get_connection w st name (fun db => lift (w_mongo w db "show collections")) ;;
           ret (q_data r)
         else ret []
     end)
    (fun _ => ret []).

End Tables.

(* ------------------------------------------------------------------ *)
(** ** Temporary-connection flows (datamaster_mcp/main.py) *)

(** The tool functions thread the store held by the global
    [config_manager] and the connection trace; an exception leaves the
    store as it is when raised. *)
Definition SM (A : Type) : Type :=
  cm_state * list event -> res A * (cm_state * list event).

Definition sret {A} (a : A) : SM A := fun s => (Ok a, s).
Definition sbind {A B} (m : SM A) (k : A -> SM B) : SM B :=
  fun s => match m s with
           | (Ok a, s') => k a s'
           | (Raise e, s') => (Raise e, s')
           end.
Definition stry {A} (m : SM A) (h : exn -> SM A) : SM A :=
  fun s => match m s with
           | (Ok a, s') => (Ok a, s')
           | (Raise e, s') => h e s'
           end.
Definition sraise {A} (e : exn) : SM A := fun s => (Raise e, s).
(** Run a manager operation against the current store. *)
Definition sread {A} (f : cm_state -> M A) : SM A :=
  fun s => let (r, tr') := f (fst s) (snd s) in (r, (fst s, tr')).
(** Run a store mutation. *)
Definition supdate {A} (f : cm_state -> A * cm_state) : SM A :=
  fun s => let (a, st') := f (fst s) in (Ok a, (st', snd s)).

Notation "x <-- m ;; k" := (sbind m (fun x => k))
  (at level 61, m at next level, right associativity).

(** Tool outcome: [status] is ["success"] ([true]) or ["error"] ([false]). *)
Definition status := bool.

(** The [config] argument of [_connect_external_database]: a config name
    ([isinstance(config, str)]) or an inline dict. *)
Inductive conn_arg : Type :=
| ByName (name : string)
| Inline (cfg : dict).

Section Flows.
Variable w : world.
Variable save : cm_state -> bool.
(** [datetime.now()] rendered by [strftime('%Y%m%d_%H%M%S')] and by
    [isoformat()]. *)
Variable stamp iso : string.
(** [os.getcwd()] *)
Variable cwd : string.

Definition temp_name (db_type : string) : string := "temp_" ++ db_type ++ "_" ++ stamp.

(** [config_with_type] of [_connect_external_database] *)
Definition temp_config (db_type : string) (cfg : dict) : dict :=
  a_set "_created_at" (JStr iso)
    (a_set "_is_temporary" (JBool true)
      (a_set "description" (JStr ("临时" ++ str_upper db_type ++ "连接配置"))
        (a_set "enabled" (JBool true)
          (a_set "type" (JStr db_type) cfg)))).

(** [sqlite_config] of [_connect_sqlite] *)
Definition sqlite_temp_config (p : string) : dict :=
  [("type", JStr "sqlite"); ("file_path", JStr (path_absolute cwd p));
   ("enabled", JBool true);
   ("description", JStr ("临时SQLite连接: " ++ path_name p));
   ("_is_temporary", JBool true); ("_created_at", JStr iso)].

(** [_connect_external_database] *)
Definition connect_external_database (db_type : string) (arg : conn_arg) : SM status :=
  stry
    (match arg with
     | ByName name =>
         r <-- sread (fun st => test_connection w st name) ;;
         if negb (fst r) then sret false
         else _ <-- sread (fun st => get_table_list w st name) ;; sret true
     | Inline cfg =>
         let name := temp_name db_type in
         let cfg' := temp_config db_type cfg in
         added <-- supdate (fun st => add_database_config save st name cfg') ;;
         if added then
           stry
             (r <-- sread (fun st => test_connection w st name) ;;
              if negb (fst r) then
                _ <-- supdate (fun st => remove_database_config save st name) ;;
                sret false
              else _ <-- sread (fun st => get_table_list w st name) ;; sret true)
             (fun e => _ <-- supdate (fun st => remove_database_config save st name) ;;
                       sraise e)
         else sret false
     end)
    (fun _ => sret false).

(** [_connect_sqlite]; [stat()] of the file found to exist does not
    fail. *)
Definition connect_sqlite (cfg : dict) : SM status :=
  stry
    (let fp := a_get_d "file_path" JNull cfg in
     if negb (truthy fp) then sret false else
     match fp with
     | JStr p =>
         if negb (w_exists w p) then sret false else
         let name := temp_name "sqlite" in
         let scfg := sqlite_temp_config p in
         added <-- supdate (fun st => add_database_config save st name scfg) ;;
         if added then
           stry
             (r <-- sread (fun st => test_connection w st name) ;;
              if negb (fst r) then
                _ <-- supdate (fun st => remove_database_config save st name) ;;
                sret false
              else _ <-- sread (fun st => get_table_list w st name) ;; sret true)
             (fun e => _ <-- supdate (fun st => remove_database_config save st name) ;;
                       sraise e)
         else sret false
     | _ => sraise (TypeError "expected str, bytes or os.PathLike object")
     end)
    (fun _ => sret false).

End Flows.

(* ------------------------------------------------------------------ *)
(** ** [_resolve_environment_variables] *)

Module EnvResolve.

(** Scanner state for [re.findall(r'\$\{([^}]+)\}', s)]: outside a
    candidate, just after a ['$'], or inside ["${"] collecting the name. *)
Inductive scan : Type :=
| Outside
| Dollar
| InName (acc : string).

(** A failed candidate never hides a later match: after ["${"] with no
    ['}'] further on, no match can start later either, and ["${}"] is
    followed by characters that are not ['$'].  Hence the scan resumes
    after the failure point instead of one past the ['$']. *)
Fixpoint findall_from (sc : scan) (s : string) : list string :=
  match s with
  | EmptyString => []
  | String c s' =>
      match sc with
      | Outside =>
          if Ascii.eqb c "$"%char then findall_from Dollar s' else findall_from Outside s'
      | Dollar =>
          if Ascii.eqb c "{"%char then findall_from (InName "") s'
          else if Ascii.eqb c "$"%char then findall_from Dollar s'
          else findall_from Outside s'
      | InName acc =>
          if Ascii.eqb c "}"%char then
            (if String.eqb acc "" then findall_from Outside s'
             else acc :: findall_from Outside s')
          else findall_from (InName (acc ++ String c EmptyString)) s'
      end
  end.

Definition findall (s : string) : list string := findall_from Outside s.

Fixpoint drop (n : nat) (s : string) : string :=
  match n, s with
  | O, _ => s
  | S n', String _ s' => drop n' s'
  | S _, EmptyString => EmptyString
  end.

(** [s.replace(old, new)] for a non-empty [old]: left to right,
    non-overlapping. *)
Fixpoint replace_fuel (fuel : nat) (old new s : string) : string :=
  match fuel with
  | O => s
  | S fuel' =>
      match s with
      | EmptyString => EmptyString
      | String c s' =>
          if str_prefix old s then new ++ replace_fuel fuel' old new (drop (String.length old) s)
          else String c (replace_fuel fuel' old new s')
      end
  end.

Definition str_replace (old new s : string) : string :=
  replace_fuel (S (String.length s)) old new s.

(** [os.getenv(name, '')] *)
Definition env := string -> string.

Definition placeholder (name : string) : string := "${" ++ name ++ "}".

(** The string case of [replace_env_vars]: each name found, in order, is
    replaced everywhere in the string as it stands at that point. *)
Definition resolve_str (e : env) (s : string) : string :=
  fold_left (fun acc n => str_replace (placeholder n) (e n) acc) (findall s) s.

(** [replace_env_vars]: keys are left as they are. *)
Fixpoint resolve (e : env) (v : jv) : jv :=
  match v with
  | JStr s => JStr (resolve_str e s)
  | JList l => JList (map (resolve e) l)
  | JObj d => JObj (map (fun kv => (fst kv, resolve e (snd kv))) d)
  | _ => v
  end.

(** Every string of the document is free of [${NAME}] occurrences. *)
Fixpoint no_placeholder (v : jv) : bool :=
  match v with
  | JStr s => match findall s with [] => true | _ => false end
  | JList l => forallb no_placeholder l
  | JObj d => forallb (fun kv => no_placeholder (snd kv)) d
  | _ => true
  end.

(** An environment given by a list of variables. *)
Definition env_of (l : list (string * string)) : env := fun n => a_get_d n "" l.

End EnvResolve.

(* ------------------------------------------------------------------ *)
(** ** The two [_save_config] routines, on the file system *)

Module Durability.

Inductive content : Type :=
| Valid (doc : jv)
| Truncated.

(** The file system as a map from paths to file contents. *)
Definition fs := list (string * content).

(** How [open(path, 'w')] followed by [json.dump] goes. *)
Inductive write_outcome : Type :=
| WriteOk
| OpenFails
| DumpFails.

(** [Path.rename] on POSIX replaces an existing target. *)
Definition rename (src dst : string) (f : fs) : fs :=
  match a_get src f with
  | Some c => a_set dst c (a_del src f)
  | None => f
  end.

Definition exists_ (p : string) (f : fs) : bool := a_mem p f.

(** [Path(p).with_suffix('.json.bak')] for a path [p] ending in [.json]. *)
Definition backup_of (p : string) : string := p ++ ".bak".

(** A save run: every intermediate file-system state, the last one
    being the final state, and whether the routine raised. *)
Record run : Type := mkRun { snapshots : list fs; raised : bool }.

Definition final (f0 : fs) (r : run) : fs := last (snapshots r) f0.

(** [ConfigManager._save_config]: [open(config_path, 'w')] truncates the
    file in place, then [json.dump] writes the document. *)
Definition cm_save (p : string) (doc : jv) (o : write_outcome) (f0 : fs) : run :=
  match o with
  | OpenFails => mkRun [f0] true
  | DumpFails => mkRun [f0; a_set p Truncated f0] true
  | WriteOk => mkRun [f0; a_set p Truncated f0; a_set p (Valid doc) f0] false
  end.

(** [APIConfigManager._save_config]: rename to the backup, write, then
    delete the backup; on failure rename the backup back. *)
Definition api_save (p : string) (doc : jv) (o : write_outcome) (f0 : fs) : run :=
  let b := backup_of p in
  let f1 := if exists_ p f0 then rename p b f0 else f0 in
  let restore (f : fs) : list fs := if exists_ b f then [rename b p f] else [] in
  match o with
  | OpenFails => mkRun ([f0; f1] ++ restore f1) true
  | DumpFails =>
      let f2 := a_set p Truncated f1 in
      mkRun ([f0; f1; f2] ++ restore f2) true
  | WriteOk =>
      let f2 := a_set p Truncated f1 in
      let f3 := a_set p (Valid doc) f2 in
      mkRun ([f0; f1; f2; f3] ++ (if exists_ b f3 then [a_del b f3] else [])) false
  end.

(** Some valid configuration file, the live one or its backup. *)
Definition some_valid (p : string) (f : fs) : bool :=
  match a_get p f, a_get (backup_of p) f with
  | Some (Valid _), _ | _, Some (Valid _) => true
  | _, _ => false
  end.

End Durability.

(* ------------------------------------------------------------------ *)
(** ** Spec-side notions and concrete inputs *)

(** Word characters of a whole-word match: [A-Za-z0-9_]. *)
Definition word_char (c : ascii) : bool :=
  let n := nat_of_ascii c in
  (((48 <=? n) && (n <=? 57)) || ((65 <=? n) && (n <=? 90)) ||
   ((97 <=? n) && (n <=? 122)) || (n =? 95))%nat.

(** The spec's whole-word occurrence of [k] in [s] ([\bK\b] for a
    keyword of word characters); [prev_ok] says that the character before
    the current position is not a word character. *)
Fixpoint whole_word_from (prev_ok : bool) (k s : string) : bool :=
  (prev_ok && str_prefix k s &&
   match EnvResolve.drop (String.length k) s with
   | String c _ => negb (word_char c)
   | EmptyString => true
   end)
  || match s with
     | EmptyString => false
     | String c s' => whole_word_from (negb (word_char c)) k s'
     end.

Definition whole_word (k s : string) : bool := whole_word_from true k s.

(** The first keyword, in list order, that [keyword in query_upper]
    finds. *)
Fixpoint first_hit (ks : list string) (qu : string) : option string :=
  match ks with
  | [] => None
  | k :: ks' => if str_contains k qu then Some k else first_hit ks' qu
  end.

(** A world where every driver imports and every call succeeds. *)
Definition w_demo : world :=
  mkWorld true true true true (fun _ => true) (fun _ _ => Ok tt)
    (fun _ _ _ => Ok ([JObj [("name", JStr "t")]], 1%Z)) (fun _ => Ok "v")
    (fun _ => Ok tt) (fun _ _ => Ok (mkQ true None [] (Some 0%Z) None)).

Definition sqlite_cfg : dict :=
  [("type", JStr "sqlite"); ("file_path", JStr "/data/app.db")].

(** A store with one SQLite config and no ["security"] section, so the
    default policy applies. *)
Definition st_demo : cm_state := mkCM [("local", sqlite_cfg)] None.

(** A MongoDB config whose database name holds a dot. *)
Definition mongo_cfg : dict :=
  [("type", JStr "mongodb"); ("host", JStr "localhost"); ("database", JStr "a.b")].

Definition st_mongo : cm_state := mkCM [("m", mongo_cfg)] None.

(** Store operations a caller may issue after a connect flow. *)
Inductive store_op : Type :=
| OpAdd (n : string) (c : dict)
| OpRemove (n : string)
| OpCleanup.

Definition run_op (save : cm_state -> bool) (st : cm_state) (op : store_op) : cm_state :=
  match op with
  | OpAdd n c => snd (add_database_config save st n c)
  | OpRemove n => snd (remove_database_config save st n)
  | OpCleanup => snd (cleanup_temporary_configs save st)
  end.

Definition run_ops (save : cm_state -> bool) (ops : list store_op) (st : cm_state) : cm_state :=
  fold_left (run_op save) ops st.

(** No explicit removal of [name]: neither [remove_database_config(name)]
    nor [cleanup_temporary_configs()]. *)
Definition no_removal (name : string) (ops : list store_op) : bool :=
  forallb (fun op => match op with
                     | OpRemove n => negb (String.eqb n name)
                     | OpCleanup => false
                     | OpAdd _ _ => true
                     end) ops.

(** What [test_connection(name)] reports in a given store. *)
Definition test_outcome (w : world) (st : cm_state) (name : string) (tr : list event) : bool :=
  match fst (test_connection w st name tr) with Ok (b, _) => b | Raise _ => false end.

(** Trace discipline of the acquisition code. *)

(** [m] leaves the connection trace as it is. *)
Definition keeps {A} (m : M A) : Prop := forall tr, snd (m tr) = tr.

(** [m] appends one [EvOpen c] when it returns [c]; when it raises it
    appends nothing or, past an open, one [EvOpen] that nothing closes. *)
Definition opens_one (m : M conn) : Prop :=
  forall tr, match m tr with
             | (Ok c, tr1) => tr1 = app tr [EvOpen c]
             | (Raise _, tr1) => tr1 = tr \/ exists c, tr1 = app tr [EvOpen c]
             end.

(** Induction over JSON documents through their lists and dicts. *)
Definition jv_deep_ind (P : jv -> Prop)
  (Hnull : P JNull) (Hbool : forall b, P (JBool b)) (Hnum : forall z, P (JNum z))
  (Hstr : forall s, P (JStr s))
  (Hlist : forall l, Forall P l -> P (JList l))
  (Hobj : forall d, Forall (fun kv => P (snd kv)) d -> P (JObj d)) : forall v, P v :=
  fix F v :=
    match v return P v with
    | JNull => Hnull
    | JBool b => Hbool b
    | JNum z => Hnum z
    | JStr s => Hstr s
    | JList l =>
        Hlist l ((fix G (l : list jv) : Forall P l :=
                    match l with
                    | [] => Forall_nil P
                    | x :: l' => Forall_cons x (F x) (G l')
                    end) l)
    | JObj d =>
        Hobj d ((fix G (d : list (string * jv)) : Forall (fun kv => P (snd kv)) d :=
                   match d with
                   | [] => Forall_nil _
                   | kv :: d' => Forall_cons kv (F (snd kv)) (G d')
                   end) d)
    end.

(** Connect-timeout keyword arguments of the drivers: [connect_timeout]
    (pymysql, psycopg2), [connection_timeout] (mysql.connector),
    [connectTimeoutMS] and [serverSelectionTimeoutMS] (pymongo),
    [timeout] (sqlite3). *)
Definition timeout_keys : list string :=
  ["connect_timeout"; "connection_timeout"; "connectTimeoutMS";
   "serverSelectionTimeoutMS"; "timeout"].

Definition no_timeout (kw : dict) : bool :=
  forallb (fun k => negb (a_mem k kw)) timeout_keys.

(** Every connection [m] hands out has keyword arguments satisfying [P]. *)
Definition yields_args (P : dict -> Prop) (m : M conn) : Prop :=
  forall tr c tr', m tr = (Ok c, tr') -> P (conn_args c).

(** A PostgreSQL config whose host does not answer. *)
Definition pg_cfg : dict :=
  [("type", JStr "postgresql"); ("host", JStr "10.255.255.1");
   ("username", JStr "u"); ("password", JStr "p"); ("database", JStr "d")].

Definition st_pg : cm_state := mkCM [("pg", pg_cfg)] None.

Definition cfg_path : string := "config/database_config.json".

(* ------------------------------------------------------------------ *)
(** ** More of [ConfigManager] *)

(** The entry [get_temporary_configs] builds for one config. *)
Definition temp_summary (cfg : dict) : dict :=
  [("type", a_get_d "type" JNull cfg);
   ("host", a_get_d "host" JNull cfg);
   ("database", a_get_d "database" JNull cfg);
   ("description", a_get_d "description" (JStr "") cfg);
   ("created_at", a_get_d "_created_at" JNull cfg)].

(** [get_temporary_configs]: the temporary configs that are enabled. *)
Definition get_temporary_configs (st : cm_state) : list (string * dict) :=
  fold_left
    (fun r nc =>
       if (is_temp_config (snd nc) && truthy (a_get_d "enabled" (JBool true) (snd nc)))%bool
       then a_set (fst nc) (temp_summary (snd nc)) r else r)
    (databases st) [].

(* ------------------------------------------------------------------ *)
(** ** [DatabaseManager.get_table_schema] *)

(** The result dicts of [get_table_schema]: the result of
    [execute_query], a [{"success": True, "schema": ...}] dict, or a
    [{"success": False, "error": ...}] dict. *)
Inductive schema_result : Type :=
| SchemaQuery (r : qresult)
| SchemaDoc (schema : dict)
| SchemaErr (msg : string).

(** [type(value).__name__] for the values of a JSON document. *)
Definition py_type_name (v : jv) : string :=
  match v with
  | JNull => "NoneType"
  | JBool _ => "bool"
  | JNum _ => "int"
  | JStr _ => "str"
  | JList _ => "list"
  | JObj _ => "dict"
  end.

Section Schema.
Variable w : world.
Variable st : cm_state.
(** [db[collection].find_one()] *)
Variable find_one : conn -> string -> res (option dict).

Definition get_table_schema (name table : string) : M schema_result :=
  try_except
    (match get_database_config st name with
     | None | Some [] => ret (SchemaErr "数据库配置不存在")
     | Some cfg =>
         t <- dict_index "type" cfg ;;
         if is_type t "mysql" then
           r <- execute_query w st name ("DESCRIBE " ++ table) [] ;; ret (SchemaQuery r)
         else if is_type t "postgresql" then
           r <- execute_query w st name
                  ("SELECT column_name, data_type, is_nullable FROM information_schema.columns WHERE table_name = '"
                   ++ table ++ "'") [] ;;
           ret (SchemaQuery r)
         else if is_type t "sqlite" then
           r <- execute_query w st name ("PRAGMA table_info(" ++ table ++ ")") [] ;;
           ret (SchemaQuery r)
         else if is_type t "mongodb" then
           get_connection w st name (fun db =>
             d <- lift (find_one db table) ;;
             match d with
             | Some doc => ret (SchemaDoc (map (fun kv => (fst kv, JStr (py_type_name (snd kv)))) doc))
             | None => ret (SchemaDoc [])
             end)
         else ret (SchemaErr "不支持的数据库类型")
     end)
    (fun e => ret (SchemaErr (exn_str e))).

End Schema.

(** The query [get_table_list] issues for a MySQL config. *)
Definition mysql_tables_query (cfg : dict) : string :=
  "SELECT TABLE_NAME FROM INFORMATION_SCHEMA.TABLES WHERE TABLE_SCHEMA = '"
  ++ py_str (a_get_d "database" (JStr "mysql") cfg) ++ "'".

(* ------------------------------------------------------------------ *)
(** ** More of [APIConfigManager] (config/api_config_manager.py) *)

Module ApiConfig.

(** [config_data["apis"]]: API name to API config. *)
Definition apis := list (string * dict).

(** [list(config.get("endpoints", {}).keys())]: a non-dict value has no
    [keys] ([AttributeError], modelled as a [TypeError]). *)
Definition endpoint_names (cfg : dict) : res (list jv) :=
  match a_get_d "endpoints" (JObj []) cfg with
  | JObj d => Ok (map (fun kv => JStr (fst kv)) d)
  | _ => Raise (TypeError "object has no attribute 'keys'")
  end.

(** The entry [list_apis] builds for one API. *)
Definition api_summary (name : string) (cfg : dict) : res dict :=
  match endpoint_names cfg with
  | Ok eps =>
      Ok [("name", a_get_d "name" (JStr name) cfg);
          ("base_url", a_get_d "base_url" (JStr "") cfg);
          ("auth_type", a_get_d "auth_type" (JStr "") cfg);
          ("data_format", a_get_d "data_format" (JStr "json") cfg);
          ("description", a_get_d "description" (JStr "") cfg);
          ("enabled", a_get_d "enabled" (JBool true) cfg);
          ("endpoints", JList eps)]
  | Raise e => Raise e
  end.

Fixpoint list_apis_from (ds : apis) (r : list (string * dict)) : res (list (string * dict)) :=
  match ds with
  | [] => Ok r
  | (n, cfg) :: ds' =>
      match api_summary n cfg with
      | Ok s => list_apis_from ds' (a_set n s r)
      | Raise e => Raise e
      end
  end.

(** [list_apis] *)
Definition list_apis (a : apis) : res (list (string * dict)) := list_apis_from a [].

(** [d.update(u)] *)
Definition dict_update (d u : dict) : dict :=
  fold_left (fun acc kv => a_set (fst kv) (snd kv) acc) u d.

(** [update_api_config]; [save] says whether [_save_config] completes,
    and the in-memory update stays when it does not. *)
Definition update_api_config (save : apis -> bool) (a : apis) (name : string) (cfg : dict)
  : bool * apis :=
  match a_get name a with
  | None => (false, a)
  | Some old => let a' := a_set name (dict_update old cfg) a in (save a', a')
  end.

End ApiConfig.

(* ------------------------------------------------------------------ *)
(** ** Identifier quoting in datamaster_mcp/main.py *)

Definition sq : ascii := "039"%char.

Fixpoint lstrip_char (c : ascii) (s : string) : string :=
  match s with
  | EmptyString => EmptyString
  | String c' s' => if Ascii.eqb c c' then lstrip_char c s' else s
  end.

(** [s.strip(c)] for a single character [c] *)
Definition strip_char (c : ascii) (s : string) : string :=
  str_rev (lstrip_char c (str_rev (lstrip_char c s))).

(** [_escape_identifier]: main.py defines it twice; the second
    definition, which strips quotes and wraps the result in double
    quotes, is the one bound when the module has loaded. *)
Definition escape_identifier (identifier : string) : string :=
  let i := strip_char sq (strip_char dq identifier) in
  String dq (i ++ String dq EmptyString).

(* ------------------------------------------------------------------ *)
(** ** Lemmas on the model *)

Lemma a_get_set {V} (n k : string) (v : V) (d : list (string * V)) :
  a_get n (a_set k v d) = if String.eqb n k then Some v else a_get n d.
Proof.
  induction d as [|[k' v'] d IH]; simpl.
  - reflexivity.
  - destruct (String.eqb k k') eqn:Ekk'.
    + apply String.eqb_eq in Ekk'; subst k'. simpl.
      destruct (String.eqb n k); reflexivity.
    + simpl. destruct (String.eqb n k') eqn:Enk'; [|exact IH].
      apply String.eqb_eq in Enk'; subst k'.
      destruct (String.eqb n k) eqn:Enk; [|reflexivity].
      apply String.eqb_eq in Enk; subst k.
      rewrite String.eqb_refl in Ekk'. discriminate.
Qed.

Lemma a_get_del {V} (n k : string) (d : list (string * V)) :
  a_get n (a_del k d) = if String.eqb n k then None else a_get n d.
Proof.
  unfold a_del. induction d as [|[k' v'] d IH]; simpl.
  - destruct (String.eqb n k); reflexivity.
  - destruct (String.eqb k k') eqn:Ekk'; simpl.
    + apply String.eqb_eq in Ekk'; subst k'. rewrite IH.
      destruct (String.eqb n k); reflexivity.
    + destruct (String.eqb n k') eqn:Enk'; [|exact IH].
      apply String.eqb_eq in Enk'; subst k'.
      destruct (String.eqb n k) eqn:Enk; [|reflexivity].
      apply String.eqb_eq in Enk; subst k.
      rewrite String.eqb_refl in Ekk'. discriminate.
Qed.

Lemma a_mem_set {V} (n k : string) (v : V) (d : list (string * V)) :
  a_mem n (a_set k v d) = String.eqb n k || a_mem n d.
Proof. unfold a_mem. rewrite a_get_set. destruct (String.eqb n k); reflexivity. Qed.

Lemma a_mem_del {V} (n k : string) (d : list (string * V)) :
  a_mem n (a_del k d) = negb (String.eqb n k) && a_mem n d.
Proof. unfold a_mem. rewrite a_get_del. destruct (String.eqb n k); reflexivity. Qed.

Lemma list_databases_fold (n : string) (ds : list (string * dict))
  (r : list (string * dict)) :
  a_mem n (fold_left (fun r nc => a_set (fst nc) (summary (snd nc)) r) ds r)
  = a_mem n ds || a_mem n r.
Proof.
  revert r. induction ds as [|[k c] ds IH]; intro r; simpl.
  - reflexivity.
  - rewrite IH, a_mem_set. unfold a_mem. simpl.
    destruct (String.eqb n k), (a_get n ds), (a_get n r); reflexivity.
Qed.

(** [list_databases] lists exactly the stored names. *)
Lemma list_databases_mem (st : cm_state) (n : string) :
  a_mem n (list_databases st) = a_mem n (databases st).
Proof.
  unfold list_databases. rewrite list_databases_fold. apply orb_false_r.
Qed.

Lemma scan_keywords_strs (kws : list string) (qu : string) (tr : list event) :
  scan_keywords (map JStr kws) qu tr = (Ok (first_hit kws qu), tr).
Proof.
  induction kws as [|k kws IH]; simpl.
  - reflexivity.
  - destruct (str_contains k qu); [reflexivity | exact IH].
Qed.

Lemma first_hit_some (ks : list string) (qu k : string) :
  first_hit ks qu = Some k -> In k ks /\ str_contains k qu = true.
Proof.
  induction ks as [|k' ks IH]; simpl; [discriminate|].
  destruct (str_contains k' qu) eqn:E.
  - intros [= <-]. auto.
  - intros H. destruct (IH H). auto.
Qed.

Lemma first_hit_none (ks : list string) (qu : string) :
  first_hit ks qu = None -> forall k, In k ks -> str_contains k qu = false.
Proof.
  induction ks as [|k' ks IH]; simpl; [tauto|].
  destruct (str_contains k' qu) eqn:E; [discriminate|].
  intros H k [<-|Hin]; auto.
Qed.

(** The keyword gate of [execute_query], once the policy is read. *)
Lemma execute_query_gate (w : world) (st : cm_state) (name q : string)
  (params : list jv) (tr : list event) (kws : list string) :
  truthy (a_get_d "allow_write_operations" (JBool false) (get_security_config st)) = false ->
  a_get_d "blocked_keywords" (JList []) (get_security_config st) = JList (map JStr kws) ->
  execute_query w st name q params tr =
  match first_hit kws (str_strip (str_upper q)) with
  | Some k => (Ok (q_fail (blocked_msg k)), tr)
  | None => try_except (execute_resolved w st name q params)
              (fun e => ret (q_fail (exn_str e))) tr
  end.
Proof.
  intros Hallow Hkw. unfold execute_query, try_except. cbv zeta.
  rewrite Hallow, Hkw. simpl negb. cbv iota.
  unfold bind, py_iter, ret at 1. cbn [negb]. cbv beta iota.
  rewrite scan_keywords_strs.
  destruct (first_hit kws (str_strip (str_upper q))); reflexivity.
Qed.

Lemma get_database_config_absent (st : cm_state) (name : string) :
  a_get name (databases st) = None -> get_database_config st name = None.
Proof. unfold get_database_config. intros ->. reflexivity. Qed.

Lemma execute_resolved_absent (w : world) (st : cm_state) (name q : string)
  (params : list jv) (tr : list event) :
  a_get name (databases st) = None ->
  execute_resolved w st name q params tr = (Ok (q_fail (missing_msg name)), tr).
Proof.
  intro H. unfold execute_resolved. rewrite (get_database_config_absent _ _ H).
  reflexivity.
Qed.

(* ------------------------------------------------------------------ *)
(** ** Claims *)

(** Claim C1, counterexample: under the default policy the query
    [SELECT updated_at FROM t] is rejected naming [UPDATE], although no
    blocked keyword occurs in it as a whole word. *)
Lemma C1_updated_at_rejected :
  execute_query w_demo st_demo "local" "SELECT updated_at FROM t" [] []
    = (Ok (q_fail (blocked_msg "UPDATE")), [])
  /\ forallb (fun k => negb (whole_word k (str_upper "SELECT updated_at FROM t")))
       ["DROP"; "DELETE"; "UPDATE"; "INSERT"; "ALTER"; "CREATE"; "TRUNCATE"] = true.
Proof. split; vm_compute; reflexivity. Qed.

(** Claim C1 (amended): with [allow_write_operations] false and the
    blocked keywords [kws], [execute_query] rejects the query naming the
    first keyword that is a substring of the uppercased, stripped query,
    leaving the connection trace untouched (no connection is opened); when
    no keyword is such a substring, the query goes on to config
    resolution. *)
Theorem execute_query_blocks_substring (w : world) (st : cm_state)
  (name q : string) (params : list jv) (tr : list event) (kws : list string)
  (Hallow : truthy (a_get_d "allow_write_operations" (JBool false)
                      (get_security_config st)) = false)
  (Hkw : a_get_d "blocked_keywords" (JList []) (get_security_config st)
         = JList (map JStr kws)) :
  let qu := str_strip (str_upper q) in
  (forall k, first_hit kws qu = Some k ->
     execute_query w st name q params tr = (Ok (q_fail (blocked_msg k)), tr)
     /\ In k kws /\ str_contains k qu = true)
  /\ (first_hit kws qu = None ->
     (forall k, In k kws -> str_contains k qu = false)
     /\ execute_query w st name q params tr
        = try_except (execute_resolved w st name q params)
            (fun e => ret (q_fail (exn_str e))) tr)
  /\ ((exists k, In k kws /\ str_contains k qu = true) <-> first_hit kws qu <> None).
Proof.
  intro qu. rewrite (execute_query_gate w st name q params tr kws Hallow Hkw).
  fold qu. split; [|split].
  - intros k Hk. rewrite Hk. split; [reflexivity|]. now apply first_hit_some.
  - intros Hn. rewrite Hn. split; [|reflexivity]. now apply first_hit_none.
  - split.
    + intros [k [Hin Hc]] Hn. rewrite (first_hit_none _ _ Hn k Hin) in Hc. discriminate.
    + destruct (first_hit kws qu) as [k|] eqn:E; [|congruence].
      intros _. exists k. now apply first_hit_some.
Qed.

Lemma execute_query_blocks_substring_witness :
  truthy (a_get_d "allow_write_operations" (JBool false) (get_security_config st_demo)) = false
  /\ execute_query w_demo st_demo "local" "DROP TABLE x" [] []
     = (Ok (q_fail (blocked_msg "DROP")), []).
Proof.
  split; [reflexivity|].
  apply (execute_query_blocks_substring w_demo st_demo "local" "DROP TABLE x" [] []
           ["DROP"; "DELETE"; "UPDATE"; "INSERT"; "ALTER"; "CREATE"; "TRUNCATE"]
           eq_refl eq_refl).
  vm_compute. reflexivity.
Defined.

(** Claim C6, counterexample: for the absent name [nosuch] and the query
    [DROP TABLE x] under the default policy, [execute_query] reports the
    blocked keyword, not the missing config. *)
Lemma C6_absent_config_security_first :
  execute_query w_demo st_demo "nosuch" "DROP TABLE x" [] []
    = (Ok (q_fail (blocked_msg "DROP")), [])
  /\ blocked_msg "DROP" <> missing_msg "nosuch".
Proof. split; [vm_compute; reflexivity | discriminate]. Qed.

(** Claim C6 (amended): for a name absent from the store, [execute_query]
    opens no connection and fails naming the missing config whenever the
    keyword scan, which runs first, passes (writes allowed, or no blocked
    keyword is a substring of the uppercased stripped query); otherwise it
    reports the first blocked keyword found. *)
Theorem execute_query_absent_config (w : world) (st : cm_state)
  (name q : string) (params : list jv) (tr : list event)
  (Habsent : a_get name (databases st) = None) :
  (truthy (a_get_d "allow_write_operations" (JBool false) (get_security_config st)) = true ->
   execute_query w st name q params tr = (Ok (q_fail (missing_msg name)), tr))
  /\ (forall kws,
      truthy (a_get_d "allow_write_operations" (JBool false) (get_security_config st)) = false ->
      a_get_d "blocked_keywords" (JList []) (get_security_config st) = JList (map JStr kws) ->
      execute_query w st name q params tr
      = (Ok (q_fail (match first_hit kws (str_strip (str_upper q)) with
                     | Some k => blocked_msg k
                     | None => missing_msg name
                     end)), tr)).
Proof.
  split.
  - intros Hallow. unfold execute_query, try_except. cbv zeta.
    rewrite Hallow. cbn [negb]. cbv iota.
    rewrite (execute_resolved_absent w st name q params tr Habsent). reflexivity.
  - intros kws Hallow Hkw.
    rewrite (execute_query_gate w st name q params tr kws Hallow Hkw).
    destruct (first_hit kws (str_strip (str_upper q))); [reflexivity|].
    unfold try_except. rewrite (execute_resolved_absent w st name q params tr Habsent).
    reflexivity.
Qed.

Lemma execute_query_absent_config_witness :
  a_get "nosuch" (databases st_demo) = None
  /\ execute_query w_demo st_demo "nosuch" "SELECT 1" [] []
     = (Ok (q_fail (missing_msg "nosuch")), []).
Proof.
  split; [reflexivity|].
  destruct (execute_query_absent_config w_demo st_demo "nosuch" "SELECT 1" [] [] eq_refl)
    as [_ H].
  rewrite (H ["DROP"; "DELETE"; "UPDATE"; "INSERT"; "ALTER"; "CREATE"; "TRUNCATE"]
             eq_refl eq_refl).
  vm_compute. reflexivity.
Defined.


(** *** Trace discipline of the acquisition code *)

Create HintDb keeps.

Lemma keeps_ret {A} (a : A) : keeps (ret a).
Proof. intro. reflexivity. Qed.

Lemma keeps_raise {A} (e : exn) : keeps (@raise A e).
Proof. intro. reflexivity. Qed.

Lemma keeps_lift {A} (r : res A) : keeps (lift r).
Proof. intro. reflexivity. Qed.

Lemma keeps_bind {A B} (m : M A) (k : A -> M B) :
  keeps m -> (forall a, keeps (k a)) -> keeps (bind m k).
Proof.
  intros Hm Hk tr. unfold bind. specialize (Hm tr).
  destruct (m tr) as [[a|e] tr'] eqn:E; simpl in *; subst; [apply Hk | reflexivity].
Qed.

Lemma keeps_dict_index (k : string) (d : dict) : keeps (dict_index k d).
Proof. unfold dict_index. destruct (a_get k d); intro; reflexivity. Qed.

Lemma keeps_as_path (v : jv) : keeps (as_path v).
Proof. destruct v; intro; reflexivity. Qed.

Lemma keeps_get_username (cfg : dict) : keeps (get_username cfg).
Proof. unfold get_username. destruct (truthy _); intro; reflexivity. Qed.

#[local] Hint Resolve keeps_ret keeps_raise keeps_lift keeps_bind keeps_dict_index
  keeps_as_path keeps_get_username : keeps.

Lemma keeps_mongo_uri (cfg : dict) : keeps (mongo_uri cfg).
Proof.
  unfold mongo_uri. destruct (_ && _)%bool;
    repeat (apply keeps_bind; intros; auto with keeps);
    try (destruct (truthy _); auto with keeps).
Qed.

Lemma opens_raise (e : exn) : opens_one (raise e).
Proof. intro. left. reflexivity. Qed.

Lemma opens_bind_keeps {A} (m : M A) (k : A -> M conn) :
  keeps m -> (forall a, opens_one (k a)) -> opens_one (bind m k).
Proof.
  intros Hm Hk tr. unfold bind. specialize (Hm tr).
  destruct (m tr) as [[a|e] tr'] eqn:E; simpl in *; subst; [apply Hk | left; reflexivity].
Qed.

Lemma opens_driver_connect (w : world) (d : string) (kw : dict) :
  opens_one (driver_connect w d kw).
Proof.
  intro tr. unfold driver_connect. destruct (w_connect w d kw); [reflexivity | left; reflexivity].
Qed.

#[local] Hint Resolve opens_raise opens_driver_connect : keeps.

Ltac opens_steps :=
  repeat first [ apply opens_bind_keeps; [auto with keeps | intro]
               | match goal with |- opens_one (if ?b then _ else _) => destruct b end ];
  auto with keeps.

Lemma keeps_mongo_get_database (v : jv) : keeps (mongo_get_database v).
Proof.
  unfold mongo_get_database. destruct v; try apply keeps_raise.
  destruct (String.eqb s ""); [apply keeps_raise|].
  destruct (find _ _) as [[? ?]|]; [apply keeps_raise | apply keeps_ret].
Qed.

(** A tail that returns the connection it was given, or raises, and
    leaves the trace as it is. *)
Lemma opens_bind_tail (m : M conn) (k : conn -> M conn) :
  opens_one m ->
  (forall c tr, match k c tr with
                | (Ok c', tr') => c' = c /\ tr' = tr
                | (Raise _, tr') => tr' = tr
                end) ->
  opens_one (bind m k).
Proof.
  intros Hm Hk tr. unfold bind. specialize (Hm tr).
  destruct (m tr) as [[c|e] tr1]; [subst tr1|exact Hm].
  specialize (Hk c (app tr [EvOpen c])).
  destruct (k c (app tr [EvOpen c])) as [[c'|e] tr'].
  - destruct Hk as [-> ->]. reflexivity.
  - subst tr'. right. eauto.
Qed.

Lemma opens_get_mongodb (w : world) (cfg : dict) : opens_one (get_mongodb_connection w cfg).
Proof.
  unfold get_mongodb_connection. destruct (negb _); [apply opens_raise|].
  apply opens_bind_keeps; [apply keeps_mongo_uri | intro u].
  apply opens_bind_tail; [apply opens_driver_connect|]. intros c tr.
  unfold bind at 1, dict_index. destruct (a_get "database" cfg) as [db|]; [|reflexivity].
  unfold ret at 1. unfold bind.
  pose proof (keeps_mongo_get_database db tr) as K.
  destruct (mongo_get_database db tr) as [[[]|e] tr'] eqn:E; simpl in K; subst tr'.
  - split; reflexivity.
  - reflexivity.
Qed.

Lemma acquire_opens_one (w : world) (st : cm_state) (name : string) :
  opens_one (acquire w st name).
Proof.
  unfold acquire. destruct (get_database_config st name) as [[|kv cfg]|];
    [apply opens_raise | | apply opens_raise].
  unfold open_backend. apply opens_bind_keeps; [auto with keeps|]. intro t.
  destruct (is_type t "mysql"); [|destruct (is_type t "postgresql");
    [|destruct (is_type t "mongodb"); [apply opens_get_mongodb|]]].
  - unfold get_mysql_connection. opens_steps.
  - unfold get_postgresql_connection. opens_steps.
  - unfold get_sqlite_connection. opens_steps.
Qed.

Lemma get_connection_trace {A} (w : world) (st : cm_state) (name : string)
  (fn : conn -> M A) (tr : list event) :
  match acquire w st name tr with
  | (Ok c, tr1) =>
      tr1 = app tr [EvOpen c]
      /\ get_connection w st name fn tr = (fst (fn c tr1), app (snd (fn c tr1)) [EvClose c])
  | (Raise e, tr1) => get_connection w st name fn tr = (Raise e, tr1)
  end.
Proof.
  pose proof (acquire_opens_one w st name tr) as H. unfold get_connection.
  destruct (acquire w st name tr) as [[c|e] tr1]; [subst tr1; split|]; try reflexivity.
  destruct (fn c (app tr [EvOpen c])). reflexivity.
Qed.

Lemma execute_sql_query_ok (w : world) (st : cm_state) (name q : string)
  (params : list jv) (tr : list event) :
  match execute_sql_query w st name q params tr with
  | (Ok r, tr') =>
      q_success r = true
      /\ exists c, tr' = app tr [EvOpen c; EvClose c]
                   /\ exists rows n, w_execute w c q params = Ok (rows, n)
  | (Raise _, _) => True
  end.
Proof.
  unfold execute_sql_query.
  pose proof (get_connection_trace w st name
    (fun c => r <- lift (w_execute w c q params) ;;
              let (rows, rowcount) := r in
              if is_select q
              then ret (mkQ true None rows (Some (Z.of_nat (length rows))) None)
              else ret (mkQ true None [] None (Some rowcount))) tr) as H.
  destruct (acquire w st name tr) as [[c|e] tr1];
    [destruct H as [-> H]; rewrite H | rewrite H; exact I].
  unfold bind, lift. destruct (w_execute w c q params) as [[rows n]|e] eqn:E;
    [|exact I].
  destruct (is_select q); simpl; (split; [reflexivity|]);
    exists c; (split; [rewrite <- app_assoc; reflexivity | eauto]).
Qed.

Lemma execute_mongodb_query_ok (w : world) (st : cm_state) (name q : string)
  (tr : list event)
  (Hmongo : forall c q' r, w_mongo w c q' = Ok r -> q_success r = false -> q_error r <> None) :
  match execute_mongodb_query w st name q tr with
  | (Ok r, tr') =>
      (q_success r = false -> q_error r <> None)
      /\ (q_success r = true ->
          exists c, tr' = app tr [EvOpen c; EvClose c] /\ w_mongo w c (str_strip q) = Ok r)
  | (Raise _, _) => False
  end.
Proof.
  unfold execute_mongodb_query, try_except.
  pose proof (get_connection_trace w st name (fun db => lift (w_mongo w db (str_strip q))) tr)
    as H.
  destruct (acquire w st name tr) as [[c|e] tr1]; [destruct H as [-> H]|]; rewrite H.
  - unfold lift. simpl. destruct (w_mongo w c (str_strip q)) as [r|e] eqn:E.
    + split; [eauto|]. intros _. exists c. split; [rewrite <- app_assoc; reflexivity | exact E].
    + simpl. split; [discriminate | discriminate].
  - simpl. split; [discriminate | discriminate].
Qed.

Lemma scan_keywords_keeps (kws : list jv) (qu : string) : keeps (scan_keywords kws qu).
Proof.
  induction kws as [|k kws IH]; [apply keeps_ret|].
  destruct k; simpl; try apply keeps_raise.
  destruct (str_contains s qu); [apply keeps_ret | exact IH].
Qed.

Lemma py_iter_keeps (v : jv) : keeps (py_iter v).
Proof. destruct v; intro; reflexivity. Qed.

Lemma execute_resolved_ok (w : world) (st : cm_state) (name q : string)
  (params : list jv) (tr : list event)
  (Hmongo : forall c q' r, w_mongo w c q' = Ok r -> q_success r = false -> q_error r <> None) :
  match execute_resolved w st name q params tr with
  | (Ok r, tr') =>
      (q_success r = false -> q_error r <> None)
      /\ (q_success r = true ->
          exists c, tr' = app tr [EvOpen c; EvClose c]
                    /\ ((exists rows n, w_execute w c q params = Ok (rows, n))
                        \/ w_mongo w c (str_strip q) = Ok r))
  | (Raise _, _) => True
  end.
Proof.
  unfold execute_resolved.
  destruct (get_database_config st name) as [[|kv cfg]|];
    [simpl; split; discriminate | | simpl; split; discriminate].
  unfold bind at 1, dict_index. destruct (a_get "type" (kv :: cfg)) as [t|]; [|exact I].
  unfold ret at 1.
  destruct (_ || _)%bool.
  - pose proof (execute_sql_query_ok w st name q params tr) as H.
    destruct (execute_sql_query w st name q params tr) as [[r|e] tr']; [|exact I].
    destruct H as [Hs [c [Htr Hx]]]. split; [congruence|]. intros _. eauto.
  - destruct (is_type t "mongodb").
    + pose proof (execute_mongodb_query_ok w st name q tr Hmongo) as H.
      destruct (execute_mongodb_query w st name q tr) as [[r|e] tr']; [|destruct H].
      destruct H as [H1 H2]. split; [exact H1|]. intro Hs.
      destruct (H2 Hs) as [c [? ?]]. eauto.
    + simpl. split; discriminate.
Qed.

Lemma mongo_get_database_dot (s : string) (tr : list event) :
  str_has_char "." s = true -> exists e, mongo_get_database (JStr s) tr = (Raise e, tr).
Proof.
  intro H. unfold mongo_get_database.
  destruct (String.eqb s "") eqn:Es.
  - apply String.eqb_eq in Es. subst s. discriminate.
  - unfold mongo_invalid_chars. cbn [find fst].
    destruct (str_has_char " " s); [eexists; reflexivity|].
    rewrite H. eexists; reflexivity.
Qed.

(** Claim C3: [get_connection] does not release on every exit path.
    For an enabled MongoDB config whose ["database"] is a string holding
    ['.'], [_get_mongodb_connection] creates [MongoClient(uri)] (the
    trace records its opening) and then [client[config['database']]]
    raises [InvalidName].  [connection] is still [None], so the
    [finally] clause closes nothing: the exception propagates, the body
    never runs, and the trace ends with the opening of the client and no
    [close()]. *)
Theorem get_connection_mongo_leak {A} (w : world) (st : cm_state) (name : string)
  (fn : conn -> M A) (tr : list event) (cfg : dict) (u s : string)
  (Hg : get_database_config st name = Some cfg)
  (Ht : a_get "type" cfg = Some (JStr "mongodb"))
  (Hdrv : w_pymongo w = true)
  (Huri : fst (mongo_uri cfg tr) = Ok u)
  (Hcon : w_connect w "pymongo" [("host", JStr u)] = Ok tt)
  (Hdb : a_get "database" cfg = Some (JStr s))
  (Hdot : str_has_char "." s = true) :
  exists e, get_connection w st name fn tr
            = (Raise e, app tr [EvOpen (mkConn "pymongo" [("host", JStr u)])]).
Proof.
  unfold get_connection, acquire. rewrite Hg.
  destruct cfg as [|kv cfg']; [discriminate|].
  unfold open_backend, bind at 1, dict_index. rewrite Ht. unfold ret at 1. cbv beta iota.
  cbv [is_type String.eqb Ascii.eqb Bool.eqb andb]. cbv iota beta.
  unfold get_mongodb_connection. rewrite Hdrv. cbn [negb].
  unfold bind at 1. pose proof (keeps_mongo_uri (kv :: cfg') tr) as K.
  destruct (mongo_uri (kv :: cfg') tr) as [[u'|e] tr'] eqn:E;
    simpl in Huri, K; [|discriminate]. injection Huri as ->. subst tr'.
  unfold bind at 1, driver_connect. rewrite Hcon. cbv zeta.
  unfold bind at 1, emit, ret at 1. unfold bind at 1, dict_index. rewrite Hdb.
  unfold ret at 1. unfold bind at 1.
  destruct (mongo_get_database_dot s (app tr [EvOpen (mkConn "pymongo" [("host", JStr u)])]) Hdot)
    as [e He].
  rewrite He. eauto.
Qed.

(** Claim C5: [execute_query] never raises.  Every run returns a result
    dict; a dict with [success] false carries an error message; and a
    dict with [success] true comes from a connection that was opened and
    closed and on which the backend answered (the SQL driver executed the
    statement, or the MongoDB handler produced that dict).  So unknown or
    disabled configs, unsupported types, missing drivers and backend
    exceptions all end as [success] false.  The hypothesis states what the
    MongoDB command handlers do: their failure dicts carry an error. *)
Theorem execute_query_total (w : world) (st : cm_state) (name q : string)
  (params : list jv) (tr : list event)
  (Hmongo : forall c q' r, w_mongo w c q' = Ok r -> q_success r = false -> q_error r <> None) :
  exists r tr',
    execute_query w st name q params tr = (Ok r, tr')
    /\ (q_success r = false -> q_error r <> None)
    /\ (q_success r = true ->
        exists c, tr' = app tr [EvOpen c; EvClose c]
                  /\ ((exists rows n, w_execute w c q params = Ok (rows, n))
                      \/ w_mongo w c (str_strip q) = Ok r)).
Proof.
  assert (Hfail : forall m tr', exists r tr'',
             ret (q_fail m) tr' = (Ok r, tr'')
             /\ (q_success r = false -> q_error r <> None)
             /\ (q_success r = true -> exists c, tr'' = app tr [EvOpen c; EvClose c]
                  /\ ((exists rows n, w_execute w c q params = Ok (rows, n))
                      \/ w_mongo w c (str_strip q) = Ok r))).
  { intros m tr'. exists (q_fail m), tr'. split; [reflexivity|].
    split; simpl; [discriminate | discriminate]. }
  assert (Hres : forall tr0, tr0 = tr -> exists r tr',
             try_except (execute_resolved w st name q params)
               (fun e => ret (q_fail (exn_str e))) tr0 = (Ok r, tr')
             /\ (q_success r = false -> q_error r <> None)
             /\ (q_success r = true -> exists c, tr' = app tr [EvOpen c; EvClose c]
                  /\ ((exists rows n, w_execute w c q params = Ok (rows, n))
                      \/ w_mongo w c (str_strip q) = Ok r))).
  { intros tr0 ->. unfold try_except.
    pose proof (execute_resolved_ok w st name q params tr Hmongo) as H.
    destruct (execute_resolved w st name q params tr) as [[r|e] tr']; [|apply Hfail].
    exists r, tr'. split; [reflexivity | exact H]. }
  unfold execute_query. cbv zeta.
  destruct (negb _).
  - unfold try_except, bind at 1.
    pose proof (py_iter_keeps (a_get_d "blocked_keywords" (JList []) (get_security_config st)) tr)
      as K1.
    destruct (py_iter _ tr) as [[kws|e] tr1]; simpl in K1; subst tr1; [|apply Hfail].
    unfold bind at 1. pose proof (scan_keywords_keeps kws (str_strip (str_upper q)) tr) as K2.
    destruct (scan_keywords kws (str_strip (str_upper q)) tr) as [[hit|e] tr2];
      simpl in K2; subst tr2; [|apply Hfail].
    destruct hit as [k|].
    + apply Hfail.
    + apply (Hres tr eq_refl).
  - apply (Hres tr eq_refl).
Qed.

Lemma execute_query_total_witness :
  (forall c q' r, w_mongo w_demo c q' = Ok r -> q_success r = false -> q_error r <> None)
  /\ exists r tr',
       execute_query w_demo st_demo "local" "SELECT * FROM t" [] [] = (Ok r, tr')
       /\ q_success r = true.
Proof.
  assert (Hm : forall c q' r, w_mongo w_demo c q' = Ok r -> q_success r = false ->
                 q_error r <> None).
  { intros c q' r E. simpl in E. injection E as <-. discriminate. }
  split; [exact Hm|].
  destruct (execute_query_total w_demo st_demo "local" "SELECT * FROM t" [] [] Hm)
    as [r [tr' [E _]]].
  exists r, tr'. split; [exact E|].
  vm_compute in E. injection E as <- _. reflexivity.
Defined.

Lemma test_connection_ok (w : world) (st : cm_state) (name : string) (tr : list event) :
  exists b m tr', test_connection w st name tr = (Ok (b, m), tr').
Proof.
  unfold test_connection, try_except.
  destruct (_ tr) as [[[b m]|e] tr']; eauto.
  unfold ret. eauto.
Qed.

Lemma get_table_list_ok (w : world) (st : cm_state) (name : string) (tr : list event) :
  exists l tr', get_table_list w st name tr = (Ok l, tr').
Proof.
  unfold get_table_list, try_except.
  destruct (_ tr) as [[l|e] tr']; eauto.
  unfold ret. eauto.
Qed.

Lemma add_database_config_mem (save : cm_state -> bool) (st : cm_state) (n : string) (c : dict) :
  a_mem n (databases (snd (add_database_config save st n c))) = true.
Proof. simpl. rewrite a_mem_set, String.eqb_refl. reflexivity. Qed.

Lemma remove_database_config_mem (save : cm_state -> bool) (st : cm_state) (n : string) :
  a_mem n (databases (snd (remove_database_config save st n))) = false.
Proof.
  unfold remove_database_config. destruct (a_mem n (databases st)) eqn:E.
  - simpl. rewrite a_mem_del, String.eqb_refl. reflexivity.
  - exact E.
Qed.

Lemma remove_database_config_other (save : cm_state -> bool) (st : cm_state) (n k : string) :
  String.eqb k n = false ->
  a_mem n (databases (snd (remove_database_config save st k))) = a_mem n (databases st).
Proof.
  intro H. unfold remove_database_config. destruct (a_mem k (databases st)); [|reflexivity].
  simpl. rewrite a_mem_del, String.eqb_sym, H. reflexivity.
Qed.

(** Without an explicit removal of [name], a stored [name] stays. *)
Lemma run_ops_keeps (save : cm_state -> bool) (name : string) (ops : list store_op) :
  forall st, no_removal name ops = true -> a_mem name (databases st) = true ->
  a_mem name (databases (run_ops save ops st)) = true.
Proof.
  unfold run_ops. induction ops as [|op ops IH]; intros st Hn Hm; [exact Hm|].
  simpl in Hn |- *. apply andb_true_iff in Hn as [Hop Hn]. apply IH; [exact Hn|].
  destruct op as [n c|n|]; simpl in Hop |- *.
  - rewrite a_mem_set, Hm. apply orb_true_r.
  - apply negb_true_iff in Hop. rewrite remove_database_config_other; [exact Hm|].
    exact Hop.
  - discriminate.
Qed.

(** The tail of both flows once the temporary config is stored: test,
    then remove on failure or list the tables on success. *)
Lemma test_then_cleanup (w : world) (save : cm_state -> bool) (name : string)
  (st1 : cm_state) (tr : list event) :
  let body :=
    stry
      (r <-- sread (fun st => test_connection w st name) ;;
       if negb (fst r) then
         _ <-- supdate (fun st => remove_database_config save st name) ;; sret false
       else _ <-- sread (fun st => get_table_list w st name) ;; sret true)
      (fun e => _ <-- supdate (fun st => remove_database_config save st name) ;; sraise e) in
  exists ok tr',
    body (st1, tr) = (Ok ok, (if test_outcome w st1 name tr then st1
                              else snd (remove_database_config save st1 name), tr'))
    /\ ok = test_outcome w st1 name tr.
Proof.
  intro body. unfold body, stry, sbind, sread, supdate, sret, test_outcome. simpl fst; simpl snd.
  destruct (test_connection_ok w st1 name tr) as [b [m [tr1 E]]]. rewrite E. simpl.
  destruct b; simpl.
  - destruct (get_table_list_ok w st1 name tr1) as [l [tr2 E2]]. rewrite E2. eauto.
  - destruct (remove_database_config save st1 name). eauto.
Qed.

(** Claim C2: temporary configs created by the connect flows of
    [_connect_external_database] (inline config) and [_connect_sqlite].
    Once [add_database_config] has stored the temporary config under
    [name], if [test_connection(name)] fails the flow removes [name]
    before returning, so [list_databases] no longer lists it; if the test
    succeeds, [name] is listed after the flow and stays in the store
    through any later store operations that do not explicitly remove it
    ([remove_database_config(name)] or [cleanup_temporary_configs()]). *)
Theorem temp_config_cleanup (w : world) (save : cm_state -> bool) (stamp iso cwd : string) :
  (forall db_type cfg st tr,
     let name := temp_name stamp db_type in
     let st1 := snd (add_database_config save st name (temp_config iso db_type cfg)) in
     fst (add_database_config save st name (temp_config iso db_type cfg)) = true ->
     let st' := fst (snd (connect_external_database w save stamp iso db_type (Inline cfg) (st, tr))) in
     (test_outcome w st1 name tr = false -> a_mem name (list_databases st') = false)
     /\ (test_outcome w st1 name tr = true ->
         a_mem name (list_databases st') = true
         /\ forall ops, no_removal name ops = true ->
            a_mem name (databases (run_ops save ops st')) = true))
  /\ (forall p cfg st tr,
     a_get_d "file_path" JNull cfg = JStr p -> p <> "" -> w_exists w p = true ->
     let name := temp_name stamp "sqlite" in
     let st1 := snd (add_database_config save st name (sqlite_temp_config iso cwd p)) in
     fst (add_database_config save st name (sqlite_temp_config iso cwd p)) = true ->
     let st' := fst (snd (connect_sqlite w save stamp iso cwd cfg (st, tr))) in
     (test_outcome w st1 name tr = false -> a_mem name (list_databases st') = false)
     /\ (test_outcome w st1 name tr = true ->
         a_mem name (list_databases st') = true
         /\ forall ops, no_removal name ops = true ->
            a_mem name (databases (run_ops save ops st')) = true)).
Proof.
  split.
  - intros db_type cfg st tr name st1 Hadd st'.
    assert (Hst' : st' = if test_outcome w st1 name tr then st1
                         else snd (remove_database_config save st1 name)).
    { unfold st', connect_external_database, stry, sbind, supdate, sread, sret.
      fold name. unfold st1, add_database_config in *. cbn [fst snd] in *.
      rewrite Hadd.
      set (s1 := {| databases := a_set name (temp_config iso db_type cfg) (databases st);
                    security := security st |}).
      cbn [fst snd]. unfold test_outcome.
      destruct (test_connection_ok w s1 name tr) as [b [m [tr1 E]]]. rewrite E. simpl.
      destruct b; simpl.
      - destruct (get_table_list_ok w s1 name tr1) as [l [tr2 E2]]. rewrite E2. reflexivity.
      - destruct (remove_database_config save s1 name). reflexivity. }
    rewrite list_databases_mem, Hst'.
    split; intros Ht; rewrite Ht.
    + apply remove_database_config_mem.
    + assert (Hm : a_mem name (databases st1) = true) by apply add_database_config_mem.
      split; [exact Hm|]. intros ops Hn. now apply run_ops_keeps.
  - intros p cfg st tr Hfp Hp Hex name st1 Hadd st'.
    assert (Hst' : st' = if test_outcome w st1 name tr then st1
                         else snd (remove_database_config save st1 name)).
    { unfold st', connect_sqlite, stry, sbind, supdate, sread, sret.
      rewrite Hfp.
      destruct (String.eqb p "") eqn:Ep; [apply String.eqb_eq in Ep; contradiction|].
      unfold truthy. rewrite Ep, Hex. cbn [negb fst snd].
      fold name. unfold st1, add_database_config in *. cbn [fst snd] in *.
      rewrite Hadd.
      set (s1 := {| databases := a_set name (sqlite_temp_config iso cwd p) (databases st);
                    security := security st |}).
      cbn [fst snd].
      unfold test_outcome.
      destruct (test_connection_ok w s1 name tr) as [b [m [tr1 E]]]. rewrite E. simpl.
      destruct b; simpl.
      - destruct (get_table_list_ok w s1 name tr1) as [l [tr2 E2]]. rewrite E2. reflexivity.
      - destruct (remove_database_config save s1 name). reflexivity. }
    rewrite list_databases_mem, Hst'.
    split; intros Ht; rewrite Ht.
    + apply remove_database_config_mem.
    + assert (Hm : a_mem name (databases st1) = true) by apply add_database_config_mem.
      split; [exact Hm|]. intros ops Hn. now apply run_ops_keeps.
Qed.

Lemma temp_config_cleanup_witness :
  a_mem (temp_name "20240101_000000" "sqlite")
    (list_databases (fst (snd (connect_sqlite w_demo (fun _ => true) "20240101_000000"
                                 "2024-01-01T00:00:00" "/home/user" sqlite_cfg (st_demo, []))))) = true.
Proof.
  destruct (proj2 (temp_config_cleanup w_demo (fun _ => true) "20240101_000000"
                     "2024-01-01T00:00:00" "/home/user")
              "/data/app.db" sqlite_cfg st_demo [] eq_refl ltac:(discriminate) eq_refl eq_refl)
    as [_ H].
  apply H. vm_compute. reflexivity.
Defined.

Lemma get_connection_mongo_leak_witness :
  exists e, get_connection w_demo st_mongo "m" (fun _ => ret tt) []
            = (Raise e, [EvOpen (mkConn "pymongo" [("host", JStr "mongodb://localhost:27017/a.b")])]).
Proof.
  apply (get_connection_mongo_leak w_demo st_mongo "m" (fun _ => ret tt) [] mongo_cfg
           "mongodb://localhost:27017/a.b" "a.b");
    vm_compute; reflexivity.
Defined.

(** *** Durability of [_save_config] *)

Lemma append_self (p s : string) : (p ++ s)%string = p -> s = "".
Proof.
  induction p as [|c p IH]; simpl; intro H; [exact H|].
  injection H as H. exact (IH H).
Qed.

Lemma backup_of_neq (p : string) : String.eqb (Durability.backup_of p) p = false.
Proof.
  apply String.eqb_neq. unfold Durability.backup_of. intro H.
  apply append_self in H. discriminate.
Qed.

Ltac fs_simpl :=
  cbv beta; unfold Durability.some_valid, Durability.rename, Durability.exists_, a_mem;
  repeat first [ rewrite a_get_set | rewrite a_get_del | rewrite String.eqb_refl
               | rewrite backup_of_neq
               | rewrite (String.eqb_sym _ (Durability.backup_of _)), backup_of_neq
               | progress cbn iota ].

(** The routine of [APIConfigManager] keeps a valid file, live or
    backup, in every intermediate state of a save over a valid file. *)
Lemma api_save_keeps_valid (p : string) (doc doc0 : jv) (o : Durability.write_outcome)
  (f0 : Durability.fs) :
  a_get p f0 = Some (Durability.Valid doc0) ->
  a_get (Durability.backup_of p) f0 = None ->
  Forall (fun f => Durability.some_valid p f = true)
    (Durability.snapshots (Durability.api_save p doc o f0)).
Proof.
  intros Hp Hb.
  destruct o; unfold Durability.api_save; cbv zeta; cbn [Durability.snapshots];
    repeat (fs_simpl; rewrite ?Hp, ?Hb);
    repeat (apply Forall_cons || apply Forall_nil); fs_simpl; rewrite ?Hp, ?Hb;
    reflexivity.
Qed.

(** Claim C4 ([ConfigManager._save_config] keeps no backup): saving over
    a valid config file with no backup beside it truncates the file in
    place.  Whenever [open(config_path, 'w')] succeeds, the run passes
    through a state where neither the config file nor a backup holds a
    valid document; when [json.dump] then fails, the routine raises and
    leaves that state as the final one.  (The sibling
    [APIConfigManager._save_config] keeps a valid file throughout, see
    [api_save_keeps_valid].) *)
Theorem cm_save_leaves_no_valid_file (p : string) (doc doc0 : jv) (f0 : Durability.fs)
  (Hp : a_get p f0 = Some (Durability.Valid doc0))
  (Hb : a_get (Durability.backup_of p) f0 = None) :
  Durability.some_valid p f0 = true
  /\ (forall o, o <> Durability.OpenFails ->
        In (a_set p Durability.Truncated f0) (Durability.snapshots (Durability.cm_save p doc o f0)))
  /\ Durability.some_valid p (a_set p Durability.Truncated f0) = false
  /\ Durability.raised (Durability.cm_save p doc Durability.DumpFails f0) = true
  /\ Durability.final f0 (Durability.cm_save p doc Durability.DumpFails f0)
     = a_set p Durability.Truncated f0.
Proof.
  split; [fs_simpl; rewrite Hp; reflexivity|].
  split; [intros [| |] Ho; [| contradiction |]; simpl; tauto|].
  split; [fs_simpl; rewrite Hb; reflexivity|].
  split; reflexivity.
Qed.

Lemma cm_save_leaves_no_valid_file_witness :
  Durability.some_valid cfg_path
    (Durability.final [(cfg_path, Durability.Valid (JObj [("databases", JObj [])]))]
       (Durability.cm_save cfg_path (JObj [("databases", JObj [("local", JObj sqlite_cfg)])])
          Durability.DumpFails [(cfg_path, Durability.Valid (JObj [("databases", JObj [])]))]))
  = false.
Proof.
  destruct (cm_save_leaves_no_valid_file cfg_path
              (JObj [("databases", JObj [("local", JObj sqlite_cfg)])])
              (JObj [("databases", JObj [])])
              [(cfg_path, Durability.Valid (JObj [("databases", JObj [])]))]
              ltac:(vm_compute; reflexivity) ltac:(vm_compute; reflexivity))
    as [_ [_ [H [_ E]]]].
  rewrite E. exact H.
Defined.

(** *** Environment-variable resolution *)

(** A variable whose value is itself a placeholder is substituted once
    per pass: with [A = "${B}"] and [B = "x"], one pass turns ["${A}"]
    into ["${B}"] and a second pass into ["x"]. *)
Lemma C7_second_pass_substitutes :
  let e := EnvResolve.env_of [("A", "${B}"); ("B", "x")] in
  EnvResolve.resolve e (JStr "${A}") = JStr "${B}"
  /\ EnvResolve.resolve e (EnvResolve.resolve e (JStr "${A}")) = JStr "x".
Proof. vm_compute. split; reflexivity. Qed.

(** Claim C7, amended: a document whose strings hold no [${NAME}]
    occurrence is a fixed point of the substitution pass; hence the pass
    is idempotent on every document for which one pass leaves no such
    occurrence.  In general a second pass may substitute again, see
    [C7_second_pass_substitutes]: idempotence holds only when no
    environment value used contains a placeholder and no substitution
    forms a new one. *)
Theorem resolve_idempotent_when_resolved (e : EnvResolve.env) (d : jv) :
  (forall v, EnvResolve.no_placeholder v = true -> EnvResolve.resolve e v = v)
  /\ (EnvResolve.no_placeholder (EnvResolve.resolve e d) = true ->
      EnvResolve.resolve e (EnvResolve.resolve e d) = EnvResolve.resolve e d).
Proof.
  assert (Hfix : forall v, EnvResolve.no_placeholder v = true -> EnvResolve.resolve e v = v).
  { intro v.
    induction v as [| b | z | s | l IH | d' IH] using jv_deep_ind; simpl; intro H;
      try reflexivity.
    - unfold EnvResolve.resolve_str.
      destruct (EnvResolve.findall s); [reflexivity | discriminate].
    - f_equal. induction IH as [|x l Hx _ IHl]; simpl in *; [reflexivity|].
      apply andb_prop in H as [H1 H2]. rewrite (Hx H1), (IHl H2). reflexivity.
    - f_equal. induction IH as [|[k x] d' Hx _ IHd]; simpl in *; [reflexivity|].
      apply andb_prop in H as [H1 H2]. rewrite (Hx H1), (IHd H2). reflexivity. }
  split; [exact Hfix | apply Hfix].
Qed.

Lemma resolve_idempotent_when_resolved_witness :
  let e := EnvResolve.env_of [("DB_PASSWORD", "s3cret")] in
  let d := JObj [("databases",
                  JObj [("main", JObj [("host", JStr "db"); ("port", JNum 5432);
                                       ("password", JStr "${DB_PASSWORD}")])])] in
  EnvResolve.no_placeholder (EnvResolve.resolve e d) = true
  /\ EnvResolve.resolve e (EnvResolve.resolve e d) = EnvResolve.resolve e d.
Proof.
  intros e d.
  assert (H : EnvResolve.no_placeholder (EnvResolve.resolve e d) = true)
    by (vm_compute; reflexivity).
  split; [exact H | exact (proj2 (resolve_idempotent_when_resolved e d) H)].
Defined.

(** *** The summaries of [list_databases] *)

Lemma list_databases_fold_get (n : string) (ds r : list (string * dict)) (s : dict) :
  a_get n (fold_left (fun r nc => a_set (fst nc) (summary (snd nc)) r) ds r) = Some s ->
  (exists c, s = summary c) \/ a_get n r = Some s.
Proof.
  revert r. induction ds as [|[k c] ds IH]; intros r H; simpl in H; [now right|].
  destruct (IH _ H) as [Hc | Hr]; [now left|].
  rewrite a_get_set in Hr. destruct (String.eqb n k).
  - left. exists c. injection Hr as <-. reflexivity.
  - now right.
Qed.

Lemma summary_password (cfg : dict) (v : jv) :
  summary (a_set "password" v cfg) = summary cfg.
Proof. unfold summary, a_get_d. rewrite !a_get_set. reflexivity. Qed.

Lemma list_databases_fold_set (name : string) (c c' : dict) (ds r : list (string * dict)) :
  a_get name ds = Some c -> summary c' = summary c ->
  fold_left (fun r nc => a_set (fst nc) (summary (snd nc)) r) (a_set name c' ds) r
  = fold_left (fun r nc => a_set (fst nc) (summary (snd nc)) r) ds r.
Proof.
  revert r. induction ds as [|[k c0] ds IH]; intros r Hg Hs; simpl in *; [discriminate|].
  destruct (String.eqb name k); simpl.
  - injection Hg as ->. rewrite Hs. reflexivity.
  - apply IH; assumption.
Qed.

(** Claim C8: [list_databases] redacts secrets.  Every summary it returns
    has exactly the eight keys [type], [description], [enabled], [host],
    [database], [file_path], [is_temporary] and [created_at], so no
    [password] or [token] field; and changing the password of a stored
    config leaves the whole listing unchanged. *)
Theorem list_databases_redacts (st : cm_state) (name : string) (cfg : dict) (v : jv)
  (H : a_get name (databases st) = Some cfg) :
  (forall n s, a_get n (list_databases st) = Some s ->
     map fst s = ["type"; "description"; "enabled"; "host"; "database"; "file_path";
                  "is_temporary"; "created_at"]
     /\ a_mem "password" s = false /\ a_mem "token" s = false)
  /\ list_databases (mkCM (a_set name (a_set "password" v cfg) (databases st)) (security st))
     = list_databases st.
Proof.
  split.
  - intros n s Hs. apply list_databases_fold_get in Hs.
    destruct Hs as [[c ->] | Hs]; [|discriminate].
    repeat split.
  - unfold list_databases. cbn [databases].
    apply list_databases_fold_set with (c := cfg); [exact H | apply summary_password].
Qed.

Lemma list_databases_redacts_witness :
  list_databases (mkCM [("local", a_set "password" (JStr "s3cret") sqlite_cfg)] None)
  = list_databases st_demo.
Proof.
  exact (proj2 (list_databases_redacts st_demo "local" sqlite_cfg (JStr "s3cret") eq_refl)).
Defined.

(** *** Keyword arguments of the acquisition code *)

Lemma yields_raise (P : dict -> Prop) (e : exn) : yields_args P (raise e).
Proof. intros tr c tr' H. discriminate. Qed.

Lemma yields_bind {A} (P : dict -> Prop) (m : M A) (k : A -> M conn) :
  (forall a, yields_args P (k a)) -> yields_args P (bind m k).
Proof.
  intros Hk tr c tr'. unfold bind.
  destruct (m tr) as [[a|e] t]; [apply Hk | discriminate].
Qed.

Lemma yields_driver_connect (P : dict -> Prop) (w : world) (d : string) (kw : dict) :
  P kw -> yields_args P (driver_connect w d kw).
Proof.
  intros HP tr c tr'. unfold driver_connect.
  destruct (w_connect w d kw); [|discriminate].
  intro E. injection E as <- _. exact HP.
Qed.

Lemma yields_mongo_client (P : dict -> Prop) (w : world) (kw cfg : dict) :
  P kw -> yields_args P (c <- driver_connect w "pymongo" kw ;;
                         db <- dict_index "database" cfg ;; mongo_get_database db ;;; ret c).
Proof.
  intros HP tr c tr'. unfold bind at 1, driver_connect.
  destruct (w_connect w "pymongo" kw); [|discriminate].
  unfold bind at 1, emit, ret at 1. unfold bind at 1, dict_index.
  destruct (a_get "database" cfg) as [db|]; [|discriminate].
  unfold ret at 1. unfold bind.
  destruct (mongo_get_database db _) as [[[]|e] t]; [|discriminate].
  intro E. injection E as <- _. exact HP.
Qed.

(** [test_connection] hands [connect_timeout=10] to psycopg2. *)
Lemma test_connection_pg_timeout :
  exists c, In (EvOpen c) (snd (test_connection w_demo st_pg "pg" []))
            /\ conn_driver c = "psycopg2"
            /\ a_get "connect_timeout" (conn_args c) = Some (JNum 10).
Proof. vm_compute. eexists. split; [left; reflexivity | split; reflexivity]. Qed.

(** Claim C9 (no connect timeout on acquisition): every connection handed
    out by the body of [get_connection], whatever the backend (pymysql or
    mysql.connector, psycopg2, pymongo, sqlite3), was opened with none of
    the drivers' connect-timeout keyword arguments, so the driver's own
    unbounded default applies; the test routines, by contrast, pass a
    10-second timeout ([test_connection_pg_timeout]). *)
Theorem acquire_no_connect_timeout (w : world) (st : cm_state) (name : string)
  (tr : list event) (c : conn) (tr' : list event)
  (H : acquire w st name tr = (Ok c, tr')) :
  no_timeout (conn_args c) = true.
Proof.
  revert tr c tr' H.
  change (yields_args (fun kw => no_timeout kw = true) (acquire w st name)).
  unfold acquire. destruct (get_database_config st name) as [[|kv cfg]|];
    [apply yields_raise | | apply yields_raise].
  unfold open_backend. apply yields_bind. intro t.
  destruct (is_type t "mysql");
    [|destruct (is_type t "postgresql"); [|destruct (is_type t "mongodb");
      [|destruct (is_type t "sqlite"); [|apply yields_raise]]]].
  - unfold get_mysql_connection. destruct (negb _); [apply yields_raise|].
    repeat (apply yields_bind; intro).
    destruct (String.eqb _ _); apply yields_driver_connect; reflexivity.
  - unfold get_postgresql_connection. destruct (negb _); [apply yields_raise|].
    repeat (apply yields_bind; intro). apply yields_driver_connect; reflexivity.
  - unfold get_mongodb_connection. destruct (negb _); [apply yields_raise|].
    apply yields_bind; intro. apply yields_mongo_client; reflexivity.
  - unfold get_sqlite_connection. repeat (apply yields_bind; intro).
    destruct (negb _); [apply yields_raise|]. apply yields_driver_connect; reflexivity.
Qed.

Lemma acquire_no_connect_timeout_witness :
  exists c tr', acquire w_demo st_pg "pg" [] = (Ok c, tr')
                /\ conn_driver c = "psycopg2" /\ no_timeout (conn_args c) = true.
Proof.
  destruct (acquire w_demo st_pg "pg" []) as [[c|e] tr'] eqn:E;
    [| vm_compute in E; discriminate].
  exists c, tr'. split; [reflexivity|]. split.
  - vm_compute in E. injection E as <- _. reflexivity.
  - exact (acquire_no_connect_timeout w_demo st_pg "pg" [] c tr' E).
Defined.

(** *** The [enabled] flag *)

(** A config whose [enabled] is [null], not explicitly false, is still
    refused by [get_database_config], and [list_databases] reports
    [enabled] as [null] for it. *)
Lemma C10_enabled_null :
  let st := mkCM [("n", [("type", JStr "sqlite"); ("file_path", JStr "/data/app.db");
                         ("enabled", JNull)])] None in
  get_database_config st "n" = None
  /\ option_map (a_get "enabled") (a_get "n" (list_databases st)) = Some (Some JNull).
Proof. split; reflexivity. Qed.

Lemma a_get_not_in {V} (k : string) (d : list (string * V)) :
  ~ In k (map fst d) -> a_get k d = None.
Proof.
  induction d as [|[k' v] d IH]; simpl; intro H; [reflexivity|].
  destruct (String.eqb k k') eqn:E.
  - apply String.eqb_eq in E. subst. exfalso. apply H. now left.
  - apply IH. intro. apply H. now right.
Qed.

Lemma list_databases_get (n : string) (ds r : list (string * dict)) :
  NoDup (map fst ds) ->
  a_get n (fold_left (fun r nc => a_set (fst nc) (summary (snd nc)) r) ds r)
  = match a_get n ds with Some c => Some (summary c) | None => a_get n r end.
Proof.
  revert r. induction ds as [|[k c] ds IH]; intros r Hnd; simpl; [reflexivity|].
  inversion Hnd as [|? ? Hk Hnd']; subst.
  rewrite (IH _ Hnd'), a_get_set.
  destruct (String.eqb n k) eqn:E.
  - apply String.eqb_eq in E. subst. rewrite (a_get_not_in k ds Hk). reflexivity.
  - reflexivity.
Qed.

(** Claim C10, amended: [get_database_config] returns [None] exactly when
    the name is absent or its config has an [enabled] entry that is
    falsy ([false], [null], [0], an empty string, list or dict); a config
    with no [enabled] entry is returned, and [list_databases] reports
    [enabled = true] for it. *)
Theorem get_database_config_enabled (st : cm_state) (name : string) :
  (get_database_config st name = None <->
     a_get name (databases st) = None
     \/ exists cfg v, a_get name (databases st) = Some cfg
                      /\ a_get "enabled" cfg = Some v /\ truthy v = false)
  /\ (forall cfg, NoDup (map fst (databases st)) ->
        a_get name (databases st) = Some cfg -> a_get "enabled" cfg = None ->
        get_database_config st name = Some cfg
        /\ option_map (a_get "enabled") (a_get name (list_databases st))
           = Some (Some (JBool true))).
Proof.
  split.
  - unfold get_database_config, a_get_d.
    destruct (a_get name (databases st)) as [cfg|]; [|split; [now left | reflexivity]].
    destruct (a_get "enabled" cfg) as [v|] eqn:Ev; simpl.
    + destruct (truthy v) eqn:Tv; split.
      * discriminate.
      * intros [D | [c [v' [D [E T]]]]]; [discriminate|].
        injection D as <-. rewrite Ev in E. injection E as <-. congruence.
      * intros _. right. exists cfg, v. auto.
      * reflexivity.
    + split; [discriminate|].
      intros [D | [c [v' [D [E _]]]]]; [discriminate|].
      injection D as <-. congruence.
  - intros cfg Hnd Hg He. unfold get_database_config, a_get_d. rewrite Hg, He.
    split; [reflexivity|].
    unfold list_databases. rewrite (list_databases_get name _ [] Hnd), Hg.
    simpl. unfold a_get_d. rewrite He. reflexivity.
Qed.

Lemma get_database_config_enabled_witness :
  get_database_config st_demo "local" = Some sqlite_cfg
  /\ option_map (a_get "enabled") (a_get "local" (list_databases st_demo))
     = Some (Some (JBool true)).
Proof.
  apply (proj2 (get_database_config_enabled st_demo "local") sqlite_cfg).
  - simpl. constructor; [intros [] | constructor].
  - reflexivity.
  - reflexivity.
Defined.

(* ------------------------------------------------------------------ *)
(** ** Further properties of [ConfigManager] *)


Lemma a_get_some_in {V} (n : string) (c : V) (d : list (string * V)) :
  a_get n d = Some c -> In (n, c) d.
Proof.
  induction d as [|[k v] d IH]; simpl; [discriminate|].
  destruct (String.eqb n k) eqn:E.
  - apply String.eqb_eq in E. subst. intros [= <-]. now left.
  - intro H. right. exact (IH H).
Qed.

Lemma a_get_in_nodup {V} (n : string) (c : V) (d : list (string * V)) :
  NoDup (map fst d) -> In (n, c) d -> a_get n d = Some c.
Proof.
  induction d as [|[k v] d IH]; simpl; [tauto|].
  intros Hnd Hin. inversion Hnd as [|? ? Hk Hnd']; subst.
  destruct Hin as [[= -> ->] | Hin].
  - rewrite String.eqb_refl. reflexivity.
  - destruct (String.eqb n k) eqn:E.
    + apply String.eqb_eq in E. subst. exfalso. apply Hk.
      apply (in_map fst) in Hin. exact Hin.
    + exact (IH Hnd' Hin).
Qed.

Lemma in_fold_del {V} (names : list string) (d : list (string * V)) (n : string) (c : V) :
  In (n, c) (fold_left (fun d k => a_del k d) names d) <-> In (n, c) d /\ ~ In n names.
Proof.
  revert d. induction names as [|k names IH]; intro d; simpl.
  - tauto.
  - rewrite IH. unfold a_del. rewrite filter_In. simpl.
    destruct (String.eqb k n) eqn:E; simpl.
    + apply String.eqb_eq in E. subst. intuition discriminate.
    + apply String.eqb_neq in E. intuition.
Qed.

Lemma a_del_absent {V} (n : string) (d : list (string * V)) :
  a_mem n d = false -> a_del n d = d.
Proof.
  unfold a_mem, a_del. induction d as [|[k v] d IH]; simpl; [reflexivity|].
  destruct (String.eqb n k); [discriminate|]. simpl. intro H. f_equal. exact (IH H).
Qed.

Lemma remove_all_state (save : cm_state -> bool) (names : list string) :
  forall st k,
  snd (remove_all save names st k)
  = mkCM (fold_left (fun d n => a_del n d) names (databases st)) (security st).
Proof.
  induction names as [|n names IH]; intros st k; simpl.
  - destruct st; reflexivity.
  - unfold remove_database_config.
    destruct (a_mem n (databases st)) eqn:Em; simpl; rewrite IH; simpl; [reflexivity|].
    rewrite (a_del_absent n _ Em). reflexivity.
Qed.

Lemma temp_in_names (n : string) (c : dict) (d : list (string * dict)) :
  In (n, c) d -> is_temp_config c = true ->
  In n (map fst (filter (fun nc => is_temp_config (snd nc)) d)).
Proof.
  intros Hin Ht. apply in_map_iff. exists (n, c). split; [reflexivity|].
  apply filter_In. auto.
Qed.

Lemma cleanup_state (save : cm_state -> bool) (st : cm_state) :
  let temps := map fst (filter (fun nc => is_temp_config (snd nc)) (databases st)) in
  snd (cleanup_temporary_configs save st)
  = mkCM (fold_left (fun d n => a_del n d) temps (databases st)) (security st).
Proof.
  intro temps. unfold cleanup_temporary_configs. fold temps.
  destruct temps as [|t ts] eqn:Et.
  - destruct st; reflexivity.
  - rewrite <- Et. destruct (remove_all save temps st 0) as [cnt st'] eqn:R.
    simpl. rewrite <- (remove_all_state save temps st 0), R. reflexivity.
Qed.

Lemma nodup_fold_del {V} (names : list string) (d : list (string * V)) :
  NoDup (map fst d) -> NoDup (map fst (fold_left (fun d k => a_del k d) names d)).
Proof.
  revert d. induction names as [|k ks IH]; intros d Hnd; simpl; [exact Hnd|].
  apply IH. unfold a_del. clear IH.
  induction d as [|[a b] d IHd]; simpl in *; [constructor|].
  inversion Hnd as [|? ? Ha Hnd']; subst.
  destruct (String.eqb k a); simpl; [exact (IHd Hnd')|].
  constructor; [|exact (IHd Hnd')].
  intro Hin. apply Ha. apply in_map_iff in Hin as [[x y] [Hx Hin]]. simpl in Hx. subst x.
  apply filter_In in Hin as [Hin _]. apply (in_map fst) in Hin. exact Hin.
Qed.

(** [cleanup_temporary_configs] always reports success, keeps the
    security section, keeps only entries of the store that are not
    temporary and, for a store without duplicate names, keeps every
    config that is not temporary. *)
Theorem cleanup_temporary_configs_removes (save : cm_state -> bool) (st : cm_state) :
  let '((ok, _), st') := cleanup_temporary_configs save st in
  ok = true /\ security st' = security st
  /\ (forall n c, In (n, c) (databases st') -> In (n, c) (databases st) /\ is_temp_config c = false)
  /\ (NoDup (map fst (databases st)) ->
      forall n c, a_get n (databases st) = Some c -> is_temp_config c = false ->
      a_get n (databases st') = Some c).
Proof.
  pose proof (cleanup_state save st) as Hs. cbv zeta in Hs.
  assert (Hok : fst (fst (cleanup_temporary_configs save st)) = true).
  { unfold cleanup_temporary_configs.
    destruct (map fst _); [reflexivity|]. destruct (remove_all _ _ _ _). reflexivity. }
  destruct (cleanup_temporary_configs save st) as [[ok msg] st'].
  simpl in Hok, Hs. subst st'. split; [exact Hok|]. split; [reflexivity|]. simpl.
  split.
  - intros n c Hin. apply in_fold_del in Hin as [Hin Hn]. split; [exact Hin|].
    destruct (is_temp_config c) eqn:Ht; [|reflexivity].
    exfalso. exact (Hn (temp_in_names n c _ Hin Ht)).
  - intros Hnd n c Hg Ht.
    pose proof (nodup_fold_del (map fst (filter (fun nc => is_temp_config (snd nc)) (databases st))) (databases st) Hnd) as Hnd'.
    apply a_get_in_nodup; [exact Hnd'|].
    apply in_fold_del. split; [exact (a_get_some_in _ _ _ Hg)|].
    intro Hin. apply in_map_iff in Hin as [[n' c'] [Hn' Hin]]. simpl in Hn'. subst n'.
    apply filter_In in Hin as [Hin Ht']. simpl in Ht'.
    rewrite (a_get_in_nodup n c' _ Hnd Hin) in Hg. injection Hg as ->. congruence.
Qed.

Lemma in_a_mem {V} (n : string) (c : V) (d : list (string * V)) :
  In (n, c) d -> a_mem n d = true.
Proof.
  unfold a_mem. induction d as [|[k v] d IH]; simpl; [tauto|].
  destruct (String.eqb n k) eqn:E; [reflexivity|].
  intros [[= -> ->] | Hin]; [rewrite String.eqb_refl in E; discriminate | exact (IH Hin)].
Qed.

Lemma nodup_map_fst_filter {V} (f : string * V -> bool) (d : list (string * V)) :
  NoDup (map fst d) -> NoDup (map fst (filter f d)).
Proof.
  induction d as [|[k v] d IH]; simpl; intro Hnd; [constructor|].
  inversion Hnd as [|? ? Hk Hnd']; subst.
  destruct (f (k, v)); simpl; [|exact (IH Hnd')].
  constructor; [|exact (IH Hnd')].
  intro Hin. apply Hk. apply in_map_iff in Hin as [[x y] [Hx Hin]]. simpl in Hx. subst x.
  apply filter_In in Hin as [Hin _]. apply (in_map fst) in Hin. exact Hin.
Qed.

Lemma remove_all_count (save : cm_state -> bool) (Hsave : forall s, save s = true)
  (names : list string) :
  forall st k, NoDup names -> (forall n, In n names -> a_mem n (databases st) = true) ->
  fst (remove_all save names st k) = (k + length names)%nat.
Proof.
  induction names as [|n ns IH]; intros st k Hnd Hm; simpl; [lia|].
  inversion Hnd as [|? ? Hn Hnd']; subst.
  unfold remove_database_config. rewrite (Hm n (or_introl eq_refl)), Hsave.
  rewrite IH; [lia | exact Hnd'|].
  intros n' Hin. simpl. rewrite a_mem_del, (Hm n' (or_intror Hin)).
  destruct (String.eqb n' n) eqn:E; [|reflexivity].
  apply String.eqb_eq in E. subst. contradiction.
Qed.

(** When every save completes and the store has no duplicate names, the
    message of [cleanup_temporary_configs] counts and lists exactly the
    names of the temporary configs, in store order. *)
Theorem cleanup_temporary_configs_count (save : cm_state -> bool) (st : cm_state)
  (Hsave : forall s, save s = true) (Hnd : NoDup (map fst (databases st))) :
  let temps := map fst (filter (fun nc => is_temp_config (snd nc)) (databases st)) in
  fst (cleanup_temporary_configs save st)
  = (true, match temps with
           | [] => "没有找到临时配置"
           | _ => "成功清理 " ++ z_str (Z.of_nat (length temps)) ++ " 个临时配置: "
                  ++ str_join ", " temps
           end).
Proof.
  intro temps. unfold cleanup_temporary_configs. fold temps.
  assert (Hc : fst (remove_all save temps st 0) = length temps).
  { apply remove_all_count; [exact Hsave | apply nodup_map_fst_filter, Hnd|].
    intros n Hin. apply in_map_iff in Hin as [[x c] [Hx Hin]]. simpl in Hx. subst x.
    apply filter_In in Hin as [Hin _]. exact (in_a_mem _ _ _ Hin). }
  destruct temps as [|t ts] eqn:Et; [reflexivity|].
  rewrite <- Et in *. destruct (remove_all save temps st 0) as [cnt st'].
  simpl in Hc. subst cnt. rewrite Et. reflexivity.
Qed.

Lemma temp_fold_get (n : string) (d r : list (string * dict)) :
  NoDup (map fst d) ->
  a_get n (fold_left
    (fun r nc =>
       if (is_temp_config (snd nc) && truthy (a_get_d "enabled" (JBool true) (snd nc)))%bool
       then a_set (fst nc) (temp_summary (snd nc)) r else r) d r)
  = match a_get n d with
    | Some c =>
        if (is_temp_config c && truthy (a_get_d "enabled" (JBool true) c))%bool
        then Some (temp_summary c) else a_get n r
    | None => a_get n r
    end.
Proof.
  revert r. induction d as [|[k c] d IH]; intros r Hnd; simpl; [reflexivity|].
  inversion Hnd as [|? ? Hk Hnd']; subst.
  rewrite (IH _ Hnd').
  destruct (String.eqb n k) eqn:E.
  - apply String.eqb_eq in E. subst. rewrite (a_get_not_in k d Hk).
    destruct (_ && _)%bool; [rewrite a_get_set, String.eqb_refl|]; reflexivity.
  - destruct (a_get n d) as [c'|]; [destruct (_ && _)%bool; [reflexivity|]|];
      destruct (_ && _)%bool; rewrite ?a_get_set, ?E; reflexivity.
Qed.

Lemma temp_fold_none (d r : list (string * dict)) :
  (forall x, In x d -> is_temp_config (snd x) = false) ->
  fold_left
    (fun r nc =>
       if (is_temp_config (snd nc) && truthy (a_get_d "enabled" (JBool true) (snd nc)))%bool
       then a_set (fst nc) (temp_summary (snd nc)) r else r) d r = r.
Proof.
  revert r. induction d as [|x d IH]; intros r H; simpl; [reflexivity|].
  rewrite (H x (or_introl eq_refl)). simpl. apply IH. intros y Hy. apply H. now right.
Qed.

(** [get_temporary_configs] maps a name to the summary of its config
    exactly when that config is temporary and enabled (for a store without
    duplicate names), and it is empty after [cleanup_temporary_configs]. *)
Theorem get_temporary_configs_spec (st : cm_state) :
  (NoDup (map fst (databases st)) ->
   forall n, a_get n (get_temporary_configs st)
             = match a_get n (databases st) with
               | Some c =>
                   if (is_temp_config c && truthy (a_get_d "enabled" (JBool true) c))%bool
                   then Some (temp_summary c) else None
               | None => None
               end)
  /\ (forall save, get_temporary_configs (snd (cleanup_temporary_configs save st)) = []).
Proof.
  split.
  - intros Hnd n. unfold get_temporary_configs. rewrite (temp_fold_get n _ [] Hnd).
    destruct (a_get n (databases st)); [destruct (_ && _)%bool|]; reflexivity.
  - intro save. rewrite cleanup_state. unfold get_temporary_configs. simpl.
    apply temp_fold_none. intros [n c] Hin. apply in_fold_del in Hin as [Hin Hn]. simpl.
    destruct (is_temp_config c) eqn:Ht; [|reflexivity].
    exfalso. exact (Hn (temp_in_names n c _ Hin Ht)).
Qed.

(** After [add_database_config], the result is what the save returned, the
    new config is visible through [get_database_config] when it is
    enabled, and the other names and the security section are unchanged. *)
Theorem add_database_config_lookup (save : cm_state -> bool) (st : cm_state)
  (name : string) (cfg : dict) :
  let (ok, st') := add_database_config save st name cfg in
  ok = save st'
  /\ get_database_config st' name
     = (if truthy (a_get_d "enabled" (JBool true) cfg) then Some cfg else None)
  /\ (forall n, n <> name -> a_get n (databases st') = a_get n (databases st))
  /\ security st' = security st.
Proof.
  unfold add_database_config, get_database_config. cbn [databases security].
  split; [reflexivity|]. rewrite a_get_set, String.eqb_refl. split; [reflexivity|].
  split; [|reflexivity]. intros n Hn. rewrite a_get_set.
  apply String.eqb_neq in Hn. rewrite Hn. reflexivity.
Qed.

(** [remove_database_config] of an absent name fails and leaves the store
    alone; of a present one it returns what the save returned, removes the
    name and keeps the other names and the security section. *)
Theorem remove_database_config_spec (save : cm_state -> bool) (st : cm_state) (name : string) :
  let (ok, st') := remove_database_config save st name in
  (a_mem name (databases st) = false -> ok = false /\ st' = st)
  /\ (a_mem name (databases st) = true ->
      ok = save st' /\ a_get name (databases st') = None
      /\ (forall n, n <> name -> a_get n (databases st') = a_get n (databases st))
      /\ security st' = security st).
Proof.
  unfold remove_database_config.
  destruct (a_mem name (databases st)) eqn:Em; split; intro H; try discriminate.
  - cbn [databases security]. rewrite a_get_del, String.eqb_refl.
    repeat split. intros n Hn. rewrite a_get_del.
    apply String.eqb_neq in Hn. rewrite Hn. reflexivity.
  - split; reflexivity.
Qed.

Lemma first_missing_none (fs : list string) (cfg : dict) :
  first_missing fs cfg = None -> forall f, In f fs -> truthy (a_get_d f JNull cfg) = true.
Proof.
  induction fs as [|f' fs IH]; simpl; [tauto|].
  destruct (truthy (a_get_d f' JNull cfg)) eqn:T; [|discriminate].
  intros H f [<- | Hin]; [exact T | exact (IH H f Hin)].
Qed.

(** A config that passes [validate_database_config] exists, has a string
    type with a known list of required fields, every one of them truthy,
    and a MySQL or PostgreSQL config has a user name. *)
Theorem validate_database_config_sound (st : cm_state) (name msg : string) :
  validate_database_config st name = (true, msg) ->
  exists cfg t fs,
    get_database_config st name = Some cfg
    /\ a_get "type" cfg = Some (JStr t)
    /\ required_fields t = Some fs
    /\ (forall f, In f fs -> truthy (a_get_d f JNull cfg) = true)
    /\ ((t = "mysql" \/ t = "postgresql") -> has_username cfg = true).
Proof.
  unfold validate_database_config.
  destruct (get_database_config st name) as [[|kv cfg']|] eqn:Hg; try discriminate.
  set (cfg := kv :: cfg') in *.
  destruct (negb (truthy (a_get_d "type" JNull cfg))); [discriminate|].
  destruct (a_get_d "type" JNull cfg) as [| | |t| |] eqn:Ht; try discriminate.
  cbn [py_str].
  destruct (required_fields t) as [fs|] eqn:Hr; [|discriminate].
  destruct ((String.eqb t "mysql" || String.eqb t "postgresql") && negb (has_username cfg))%bool
    eqn:Hu; [discriminate|].
  destruct (first_missing fs cfg) eqn:Hm; [discriminate|]. intros _.
  exists cfg, t, fs. split; [reflexivity|].
  split; [unfold a_get_d in Ht; destruct (a_get "type" cfg); [exact (f_equal Some Ht) | discriminate]|].
  split; [exact Hr|]. split; [exact (first_missing_none _ _ Hm)|].
  intros Ht'. destruct (has_username cfg); [reflexivity|].
  destruct Ht' as [-> | ->]; simpl in Hu; rewrite ?orb_true_r in Hu; discriminate.
Qed.

(* ------------------------------------------------------------------ *)
(** ** Further properties of [DatabaseManager] *)

Lemma execute_resolved_sql (w : world) (st : cm_state) (name q : string)
  (params : list jv) (cfg : dict) (t : string) (tr : list event) :
  get_database_config st name = Some cfg ->
  a_get "type" cfg = Some (JStr t) ->
  t = "mysql" \/ t = "postgresql" \/ t = "sqlite" ->
  execute_resolved w st name q params tr = execute_sql_query w st name q params tr.
Proof.
  intros Hg Ht Hs. unfold execute_resolved. rewrite Hg.
  destruct cfg as [|kv cfg']; [discriminate|].
  unfold bind, dict_index. rewrite Ht. unfold ret. cbv beta iota.
  destruct Hs as [-> | [-> | ->]]; reflexivity.
Qed.

Lemma execute_query_pass (w : world) (st : cm_state) (name q : string)
  (params : list jv) (tr : list event) :
  (truthy (a_get_d "allow_write_operations" (JBool false) (get_security_config st)) = true
   \/ exists kws, a_get_d "blocked_keywords" (JList []) (get_security_config st) = JList (map JStr kws)
                  /\ first_hit kws (str_strip (str_upper q)) = None) ->
  execute_query w st name q params tr
  = try_except (execute_resolved w st name q params) (fun e => ret (q_fail (exn_str e))) tr.
Proof.
  intro Hgate.
  destruct (truthy (a_get_d "allow_write_operations" (JBool false) (get_security_config st))) eqn:Ha.
  - unfold execute_query. cbv zeta. rewrite Ha. reflexivity.
  - destruct Hgate as [H | [kws [Hk Hh]]]; [discriminate|].
    rewrite (execute_query_gate w st name q params tr kws Ha Hk), Hh. reflexivity.
Qed.

(** On a MySQL, PostgreSQL or SQLite config whose query passes the
    keyword gate, once a connection [c] is acquired, [execute_query]
    returns the rows and their count for a [SELECT], the driver's
    [rowcount] with no rows otherwise, and a failure carrying the driver
    error when the statement raises; in each case [c] is opened and
    closed exactly once. *)
Theorem execute_query_sql_result (w : world) (st : cm_state) (name q : string)
  (params : list jv) (tr : list event) (cfg : dict) (t : string) (c : conn)
  (Hg : get_database_config st name = Some cfg)
  (Ht : a_get "type" cfg = Some (JStr t))
  (Hs : t = "mysql" \/ t = "postgresql" \/ t = "sqlite")
  (Hgate : truthy (a_get_d "allow_write_operations" (JBool false) (get_security_config st)) = true
           \/ exists kws, a_get_d "blocked_keywords" (JList []) (get_security_config st)
                          = JList (map JStr kws)
                          /\ first_hit kws (str_strip (str_upper q)) = None)
  (Hacq : fst (acquire w st name tr) = Ok c) :
  execute_query w st name q params tr
  = (Ok (match w_execute w c q params with
         | Ok (rows, n) =>
             if is_select q then mkQ true None rows (Some (Z.of_nat (length rows))) None
             else mkQ true None [] None (Some n)
         | Raise e => q_fail (exn_str e)
         end),
     (tr ++ [EvOpen c; EvClose c])%list).
Proof.
  rewrite (execute_query_pass w st name q params tr Hgate).
  unfold try_except. rewrite (execute_resolved_sql w st name q params cfg t tr Hg Ht Hs).
  unfold execute_sql_query.
  match goal with |- context [get_connection w st name ?f tr] =>
    pose proof (get_connection_trace w st name f tr) as H end.
  destruct (acquire w st name tr) as [[c'|e] tr1]; simpl in Hacq; [|discriminate].
  injection Hacq as ->. destruct H as [-> ->].
  unfold bind, lift. cbn [fst snd].
  destruct (w_execute w c q params) as [[rows n]|e];
    [destruct (is_select q)|]; simpl; rewrite <- app_assoc; reflexivity.
Qed.

Lemma lstrip_snoc (x : string) (c : ascii) :
  py_space c = false -> lstrip (x ++ String c EmptyString) = lstrip x ++ String c EmptyString.
Proof.
  intro Hc. induction x as [|a x IH]; simpl.
  - rewrite Hc. reflexivity.
  - destruct (py_space a); [exact IH | reflexivity].
Qed.

Lemma str_rev_snoc (x : string) (c : ascii) :
  str_rev (x ++ String c EmptyString) = String c (str_rev x).
Proof. induction x as [|a x IH]; simpl; [reflexivity|]. rewrite IH. reflexivity. Qed.

Lemma str_strip_head (c : ascii) (s : string) :
  py_space c = false -> exists s', str_strip (String c s) = String c s'.
Proof.
  intro Hc. unfold str_strip. simpl lstrip at 2. rewrite Hc. simpl str_rev at 2.
  rewrite (lstrip_snoc _ _ Hc), str_rev_snoc. eauto.
Qed.

(** A query whose first character is neither white space nor [S]/[s]
    is not a [SELECT]. *)
Lemma is_select_head (c : ascii) (s : string) :
  py_space c = false -> Ascii.eqb "S"%char (ascii_upper c) = false ->
  is_select (String c s) = false.
Proof.
  intros Hc Hs. unfold is_select. destruct (str_strip_head c s Hc) as [s' ->].
  simpl str_upper. unfold str_prefix. rewrite Hs. reflexivity.
Qed.

Lemma execute_resolved_nonselect (w : world) (st : cm_state) (name q : string)
  (params : list jv) (cfg : dict) (t : string) (tr : list event) :
  get_database_config st name = Some cfg ->
  a_get "type" cfg = Some (JStr t) ->
  t = "mysql" \/ t = "postgresql" \/ t = "sqlite" ->
  is_select q = false ->
  match execute_resolved w st name q params tr with
  | (Ok r, _) => q_data r = []
  | (Raise _, _) => True
  end.
Proof.
  intros Hg Ht Hs Hq. rewrite (execute_resolved_sql w st name q params cfg t tr Hg Ht Hs).
  unfold execute_sql_query.
  match goal with |- context [get_connection w st name ?f tr] =>
    pose proof (get_connection_trace w st name f tr) as H end.
  destruct (acquire w st name tr) as [[c|e] tr1]; [destruct H as [-> ->] | rewrite H; exact I].
  unfold bind, lift. cbn [fst].
  destruct (w_execute w c q params) as [[rows n]|e]; [|exact I].
  rewrite Hq. reflexivity.
Qed.

Lemma execute_query_nonselect (w : world) (st : cm_state) (name q : string)
  (params : list jv) (cfg : dict) (t : string) (tr : list event) :
  get_database_config st name = Some cfg ->
  a_get "type" cfg = Some (JStr t) ->
  t = "mysql" \/ t = "postgresql" \/ t = "sqlite" ->
  is_select q = false ->
  exists r, fst (execute_query w st name q params tr) = Ok r /\ q_data r = [].
Proof.
  intros Hg Ht Hs Hq.
  unfold execute_query, try_except. cbv zeta.
  destruct (negb _).
  - unfold bind. destruct (py_iter _ tr) as [[kws|e] tr1]; [|eexists; split; reflexivity].
    destruct (scan_keywords kws _ tr1) as [[[k|]|e] tr2]; try (eexists; split; reflexivity).
    pose proof (execute_resolved_nonselect w st name q params cfg t tr2 Hg Ht Hs Hq) as H.
    destruct (execute_resolved w st name q params tr2) as [[r|e] tr3];
      eexists; split; [reflexivity | exact H | reflexivity | reflexivity].
  - pose proof (execute_resolved_nonselect w st name q params cfg t tr Hg Ht Hs Hq) as H.
    destruct (execute_resolved w st name q params tr) as [[r|e] tr3];
      eexists; split; [reflexivity | exact H | reflexivity | reflexivity].
Qed.

(** For a MySQL or SQLite config, [get_table_schema] always returns the
    result of [execute_query] and that result has no data: the
    [DESCRIBE] and [PRAGMA] statements do not start with [SELECT], so
    their rows are never fetched. *)
Theorem get_table_schema_sql_no_rows (w : world) (st : cm_state)
  (find_one : conn -> string -> res (option dict)) (name table : string) (tr : list event)
  (cfg : dict) (t : string)
  (Hg : get_database_config st name = Some cfg)
  (Ht : a_get "type" cfg = Some (JStr t))
  (Hs : t = "mysql" \/ t = "sqlite") :
  exists r, fst (get_table_schema w st find_one name table tr) = Ok (SchemaQuery r)
            /\ q_data r = [].
Proof.
  unfold get_table_schema, try_except. rewrite Hg.
  destruct cfg as [|kv cfg']; [discriminate|].
  unfold bind at 1, dict_index. rewrite Ht. unfold ret at 1. cbv beta iota.
  destruct Hs as [-> | ->]; cbv [is_type String.eqb Ascii.eqb Bool.eqb andb]; cbv iota beta; unfold bind.
  - destruct (execute_query_nonselect w st name ("DESCRIBE " ++ table) [] (kv :: cfg') "mysql" tr
                Hg Ht (or_introl eq_refl) (is_select_head "D"%char ("ESCRIBE " ++ table) eq_refl eq_refl)) as [r [Hr Hd]].
    destruct (execute_query w st name ("DESCRIBE " ++ table) [] tr) as [r0 tr1].
    simpl in Hr. subst r0. exists r. split; [reflexivity | exact Hd].
  - destruct (execute_query_nonselect w st name ("PRAGMA table_info(" ++ table ++ ")") []
                (kv :: cfg') "sqlite" tr
                Hg Ht (or_intror (or_intror eq_refl)) (is_select_head "P"%char ("RAGMA table_info(" ++ table ++ ")") eq_refl eq_refl))
      as [r [Hr Hd]].
    destruct (execute_query w st name ("PRAGMA table_info(" ++ table ++ ")") [] tr) as [r0 tr1].
    simpl in Hr. subst r0. exists r. split; [reflexivity | exact Hd].
Qed.

(** With write operations disallowed, when the MySQL database name makes
    the listing query contain a blocked keyword (a database named
    [product_updates] contains [UPDATE]), [get_table_list] returns an
    empty list without opening a connection. *)
Theorem get_table_list_mysql_blocked (w : world) (st : cm_state) (name : string)
  (tr : list event) (cfg : dict) (kws : list string) (k : string)
  (Hg : get_database_config st name = Some cfg)
  (Ht : a_get "type" cfg = Some (JStr "mysql"))
  (Ha : truthy (a_get_d "allow_write_operations" (JBool false) (get_security_config st)) = false)
  (Hk : a_get_d "blocked_keywords" (JList []) (get_security_config st) = JList (map JStr kws))
  (Hh : first_hit kws (str_strip (str_upper (mysql_tables_query cfg))) = Some k) :
  get_table_list w st name tr = (Ok [], tr).
Proof.
  unfold get_table_list, try_except. rewrite Hg.
  destruct cfg as [|kv cfg']; [discriminate|].
  unfold bind at 1, dict_index. rewrite Ht. unfold ret at 1. cbv beta iota.
  cbv [is_type String.eqb Ascii.eqb Bool.eqb andb]. cbv iota beta. unfold bind.
  rewrite (execute_query_gate w st name _ [] tr kws Ha Hk).
  unfold mysql_tables_query in Hh. rewrite Hh. reflexivity.
Qed.

(** [test_connection] opens no connection when the config fails
    validation (it returns the validation message) or when it is a
    SQLite config whose file does not exist (it reports [str(Path(p))],
    the normalised path). *)
Theorem test_connection_no_open (w : world) (st : cm_state) (name : string) (tr : list event) :
  (forall msg, validate_database_config st name = (false, msg) ->
     test_connection w st name tr = (Ok (false, msg), tr))
  /\ (forall msg cfg p,
        validate_database_config st name = (true, msg) ->
        get_database_config st name = Some cfg ->
        a_get "type" cfg = Some (JStr "sqlite") ->
        a_get "file_path" cfg = Some (JStr p) ->
        w_exists w p = false ->
        test_connection w st name tr = (Ok (false, "SQLite 文件不存在: " ++ path_str p), tr)).
Proof.
  split.
  - intros msg Hv. unfold test_connection, try_except. rewrite Hv. reflexivity.
  - intros msg cfg p Hv Hg Ht Hp He. unfold test_connection, try_except. rewrite Hv.
    cbn [negb]. rewrite Hg. destruct cfg as [|kv cfg']; [discriminate|].
    unfold bind at 1, dict_index. rewrite Ht. unfold ret at 1. cbv beta iota.
    cbv [is_type String.eqb Ascii.eqb Bool.eqb andb]. cbv iota beta.
    unfold test_sqlite_connection, try_except, bind, dict_index. rewrite Hp.
    unfold as_path, ret. rewrite He. reflexivity.
Qed.

(** [_test_postgresql_connection] leaks its connection when the version
    query raises after [connect] succeeded: the test reports failure,
    and the trace holds the opening of the connection and no [close]. *)
Theorem test_connection_pg_probe_leak (w : world) (st : cm_state) (name : string)
  (tr : list event) (cfg : dict) (host password database : jv) (e : exn)
  (Hv : fst (validate_database_config st name) = true)
  (Hg : get_database_config st name = Some cfg)
  (Ht : a_get "type" cfg = Some (JStr "postgresql"))
  (Hh : a_get "host" cfg = Some host)
  (Hpw : a_get "password" cfg = Some password)
  (Hd : a_get "database" cfg = Some database)
  (Hu : has_username cfg = true)
  (Hdrv : w_psycopg2 w = true)
  (Hc : forall kw, w_connect w "psycopg2" kw = Ok tt)
  (He : forall c, w_execute w c "SELECT version()" [] = Raise e) :
  exists c, conn_driver c = "psycopg2"
    /\ test_connection w st name tr
       = (Ok (false, "连接失败 (使用驱动: psycopg2): " ++ exn_str e), (tr ++ [EvOpen c])%list).
Proof.
  eexists. split; [|].
  2:{
  unfold test_connection, try_except.
  destruct (validate_database_config st name) as [[|] msg]; simpl in Hv; [|discriminate].
  cbn [negb]. rewrite Hg. destruct cfg as [|kv cfg']; [discriminate|].
  unfold bind at 1, dict_index. rewrite Ht. unfold ret at 1. cbv beta iota.
  cbv [is_type String.eqb Ascii.eqb Bool.eqb andb]. cbv iota beta.
  unfold test_postgresql_connection, postgresql_available. rewrite Hdrv, Hu. cbn [negb].
  unfold try_except, bind, dict_index. rewrite Hh, Hpw, Hd.
  unfold ret; cbv beta iota zeta. unfold driver_connect. rewrite Hc.
  unfold emit, ret, probe_version, bind, lift; cbv beta iota zeta.
  rewrite He. reflexivity. }
  reflexivity.
Qed.

(* ------------------------------------------------------------------ *)
(** ** Further properties of [APIConfigManager] *)



(** Connecting by config name never changes the config store, and the
    reported status is the outcome of [test_connection]. *)
Theorem connect_by_name_keeps_store (w : world) (save : cm_state -> bool) (stamp iso db_type name : string)
  (st : cm_state) (tr : list event) :
  exists tr', connect_external_database w save stamp iso db_type (ByName name) (st, tr)
              = (Ok (test_outcome w st name tr), (st, tr')).
Proof.
  unfold connect_external_database, stry, sbind, sread, sret, test_outcome. cbn [fst snd].
  destruct (test_connection_ok w st name tr) as [b [m [tr1 E]]]. rewrite E.
  destruct b; simpl.
  - destruct (get_table_list_ok w st name tr1) as [l [tr2 E2]]. rewrite E2. eauto.
  - eauto.
Qed.

(** When saving the new temporary config fails, both connect flows
    report an error without testing the connection, yet the temporary
    config stays in the in-memory store under its name; for
    [_connect_sqlite] that config holds [str(Path(p).absolute())] in
    working directory [cwd] and the description built from
    [Path(p).name]. *)
Theorem connect_add_fails_keeps_temp (w : world) (save : cm_state -> bool) (stamp iso cwd : string)
  (st : cm_state) (tr : list event) :
  (forall db_type cfg,
     let name := temp_name stamp db_type in
     let (added, st1) := add_database_config save st name (temp_config iso db_type cfg) in
     added = false ->
     connect_external_database w save stamp iso db_type (Inline cfg) (st, tr) = (Ok false, (st1, tr))
     /\ a_get name (databases st1) = Some (temp_config iso db_type cfg))
  /\ (forall cfg p,
        a_get "file_path" cfg = Some (JStr p) -> p <> "" -> w_exists w p = true ->
        let name := temp_name stamp "sqlite" in
        let (added, st1) := add_database_config save st name (sqlite_temp_config iso cwd p) in
        added = false ->
        connect_sqlite w save stamp iso cwd cfg (st, tr) = (Ok false, (st1, tr))
        /\ a_get name (databases st1) = Some (sqlite_temp_config iso cwd p)).
Proof.
  split.
  - intros db_type cfg name. unfold add_database_config. cbn [databases]. intro Hs.
    split; [|rewrite a_get_set, String.eqb_refl; reflexivity].
    unfold connect_external_database, stry, sbind, supdate, add_database_config.
    cbn [fst snd]. fold name. rewrite Hs. reflexivity.
  - intros cfg p Hp Hne He name. unfold add_database_config. cbn [databases]. intro Hs.
    split; [|rewrite a_get_set, String.eqb_refl; reflexivity].
    unfold connect_sqlite, stry, sbind, supdate, add_database_config. cbv zeta.
    unfold a_get_d at 1 2. rewrite Hp.
    destruct p as [|c p']; [contradiction|]. simpl. rewrite He. simpl.
    fold name. rewrite Hs. reflexivity.
Qed.

(** [_connect_sqlite] with a falsy or non-string [file_path], or one
    naming a missing file, reports an error and changes neither the store
    nor the connection trace. *)
Theorem connect_sqlite_early_exit (w : world) (save : cm_state -> bool) (stamp iso cwd : string)
  (cfg : dict) (st : cm_state) (tr : list event) :
  (truthy (a_get_d "file_path" JNull cfg) = false ->
   connect_sqlite w save stamp iso cwd cfg (st, tr) = (Ok false, (st, tr)))
  /\ (forall v, a_get "file_path" cfg = Some v -> (forall p, v <> JStr p) ->
      connect_sqlite w save stamp iso cwd cfg (st, tr) = (Ok false, (st, tr)))
  /\ (forall p, a_get "file_path" cfg = Some (JStr p) -> w_exists w p = false ->
      connect_sqlite w save stamp iso cwd cfg (st, tr) = (Ok false, (st, tr))).
Proof.
  unfold connect_sqlite, stry, sret, sraise. cbv zeta.
  split; [|split].
  - intro H. rewrite H. reflexivity.
  - intros v Hv Hn. unfold a_get_d. rewrite Hv.
    destruct (negb (truthy v)); [reflexivity|].
    destruct v; try reflexivity. exfalso. exact (Hn s eq_refl).
  - intros p Hp He. unfold a_get_d. rewrite Hp.
    destruct (negb (truthy (JStr p))); [reflexivity|]. rewrite He. reflexivity.
Qed.

Lemma dict_update_get (d u : dict) (k : string) :
  NoDup (map fst u) ->
  a_get k (ApiConfig.dict_update d u)
  = match a_get k u with Some v => Some v | None => a_get k d end.
Proof.
  unfold ApiConfig.dict_update. revert d.
  induction u as [|[k0 v0] u IH]; intros d Hnd; simpl; [reflexivity|].
  inversion Hnd as [|? ? Hk0 Hnd']; subst.
  rewrite (IH _ Hnd'). cbn [fst snd]. rewrite a_get_set.
  destruct (String.eqb k k0) eqn:E; [|reflexivity].
  apply String.eqb_eq in E. subst. rewrite (a_get_not_in k0 u Hk0). reflexivity.
Qed.

(** [update_api_config] of an unknown API returns [False] and changes
    nothing; of a known one it merges the given keys over the stored
    config (new values win, other keys are kept), leaves the other APIs
    alone, and returns what the save returned. *)
Theorem update_api_config_merge (save : ApiConfig.apis -> bool) (a : ApiConfig.apis)
  (name : string) (cfg : dict) (Hnd : NoDup (map fst cfg)) :
  let (ok, a') := ApiConfig.update_api_config save a name cfg in
  match a_get name a with
  | None => ok = false /\ a' = a
  | Some old =>
      ok = save a'
      /\ (forall n, n <> name -> a_get n a' = a_get n a)
      /\ exists upd, a_get name a' = Some upd
                     /\ forall k, a_get k upd = match a_get k cfg with
                                                | Some v => Some v
                                                | None => a_get k old
                                                end
  end.
Proof.
  unfold ApiConfig.update_api_config.
  destruct (a_get name a) as [old|] eqn:Ha; [|split; reflexivity].
  split; [reflexivity|]. split.
  - intros n Hn. rewrite a_get_set. apply String.eqb_neq in Hn. rewrite Hn. reflexivity.
  - exists (ApiConfig.dict_update old cfg). rewrite a_get_set, String.eqb_refl.
    split; [reflexivity|]. intro k. exact (dict_update_get old cfg k Hnd).
Qed.

Lemma in_a_set {V} (x : string * V) (k : string) (v : V) (d : list (string * V)) :
  In x (a_set k v d) -> x = (k, v) \/ In x d.
Proof.
  induction d as [|[k' v'] d IH]; simpl; [intuition|].
  destruct (String.eqb k k') eqn:E; simpl.
  - apply String.eqb_eq in E. subst. intuition.
  - intros [<- | H]; [auto|]. destruct (IH H); auto.
Qed.

Lemma list_apis_from_spec (ds : ApiConfig.apis) :
  forall r,
  (forall n s, In (n, s) r ->
     map fst s = ["name"; "base_url"; "auth_type"; "data_format"; "description"; "enabled"; "endpoints"]) ->
  match ApiConfig.list_apis_from ds r with
  | Ok r' =>
      (forall n s, In (n, s) r' ->
         map fst s = ["name"; "base_url"; "auth_type"; "data_format"; "description"; "enabled"; "endpoints"])
      /\ (forall n, a_mem n r' = (a_mem n r || a_mem n ds)%bool)
  | Raise _ => exists n cfg e, In (n, cfg) ds /\ ApiConfig.endpoint_names cfg = Raise e
  end.
Proof.
  induction ds as [|[n cfg] ds IH]; intros r Hr; simpl.
  - split; [exact Hr|]. intro n. unfold a_mem at 3. simpl. rewrite orb_false_r. reflexivity.
  - unfold ApiConfig.api_summary at 1.
    destruct (ApiConfig.endpoint_names cfg) as [eps|e] eqn:Ee; [|eauto 7].
    cbv beta iota.
    specialize (IH (a_set n
      [("name", a_get_d "name" (JStr n) cfg); ("base_url", a_get_d "base_url" (JStr "") cfg);
       ("auth_type", a_get_d "auth_type" (JStr "") cfg);
       ("data_format", a_get_d "data_format" (JStr "json") cfg);
       ("description", a_get_d "description" (JStr "") cfg);
       ("enabled", a_get_d "enabled" (JBool true) cfg); ("endpoints", JList eps)] r)).
    destruct (ApiConfig.list_apis_from ds _) as [r'|e'].
    + destruct IH as [IH1 IH2].
      * intros n' s Hin. apply in_a_set in Hin as [[= -> ->] | Hin]; [reflexivity | exact (Hr _ _ Hin)].
      * split; [exact IH1|]. intro n'. rewrite IH2, a_mem_set.
        unfold a_mem. simpl.
        destruct (String.eqb n' n), (a_get n' r), (a_get n' ds); reflexivity.
    + destruct IH as [n0 [cfg0 [e0 [Hin He]]]].
      * intros n' s Hin. apply in_a_set in Hin as [[= -> ->] | Hin]; [reflexivity | exact (Hr _ _ Hin)].
      * exists n0, cfg0, e0. auto.
Qed.

(** [list_apis] returns, for each configured API and no other name, a
    summary with exactly the seven public keys (no authentication data);
    it raises only when some API has an [endpoints] value that is not a
    dict. *)
Theorem list_apis_summaries (a : ApiConfig.apis) :
  match ApiConfig.list_apis a with
  | Ok r =>
      (forall n s, In (n, s) r ->
         map fst s = ["name"; "base_url"; "auth_type"; "data_format"; "description"; "enabled"; "endpoints"])
      /\ (forall n, a_mem n r = a_mem n a)
  | Raise _ => exists n cfg e, In (n, cfg) a /\ ApiConfig.endpoint_names cfg = Raise e
  end.
Proof.
  pose proof (list_apis_from_spec a [] (fun n s H => match H with end)) as H.
  change (ApiConfig.list_apis_from a []) with (ApiConfig.list_apis a) in H.
  revert H. destruct (ApiConfig.list_apis a); intro H; [|exact H].
  destruct H as [H1 H2]. split; [exact H1|]. intro n. rewrite H2. reflexivity.
Qed.

(* ------------------------------------------------------------------ *)
(** ** Further properties of [_resolve_environment_variables] *)

Lemma findall_no_dollar (s : string) :
  ~ In "$"%char (list_ascii_of_string s) -> EnvResolve.findall_from EnvResolve.Outside s = [].
Proof.
  induction s as [|c s IH]; simpl; intro H; [reflexivity|].
  destruct (Ascii.eqb c "$"%char) eqn:E.
  - apply Ascii.eqb_eq in E. subst. exfalso. apply H. now left.
  - apply IH. intro Hin. apply H. now right.
Qed.

Lemma str_app_nil_r (s : string) : (s ++ "")%string = s.
Proof. induction s as [|c s IH]; simpl; [reflexivity|]. rewrite IH. reflexivity. Qed.

Lemma str_app_assoc (a b c : string) : ((a ++ b) ++ c)%string = (a ++ (b ++ c))%string.
Proof. induction a as [|x a IH]; simpl; [reflexivity|]. rewrite IH. reflexivity. Qed.

Lemma findall_name (n : string) :
  (forall c, In c (list_ascii_of_string n) -> c <> "}"%char) ->
  forall acc, EnvResolve.findall_from (EnvResolve.InName acc) (n ++ "}")
              = if String.eqb (acc ++ n) "" then [] else [acc ++ n].
Proof.
  induction n as [|c n IH]; intros H acc; simpl.
  - rewrite str_app_nil_r. destruct (String.eqb acc ""); reflexivity.
  - destruct (Ascii.eqb c "}"%char) eqn:E.
    + apply Ascii.eqb_eq in E. exfalso. exact (H c (or_introl eq_refl) E).
    + rewrite IH; [|intros c' Hc'; apply H; now right].
      rewrite str_app_assoc. reflexivity.
Qed.

Lemma str_prefix_refl (s : string) : str_prefix s s = true.
Proof. induction s as [|c s IH]; simpl; [reflexivity|]. rewrite Ascii.eqb_refl. exact IH. Qed.

Lemma drop_length (s : string) : EnvResolve.drop (String.length s) s = "".
Proof. induction s as [|c s IH]; simpl; [reflexivity | exact IH]. Qed.

Lemma str_replace_self (s new : string) : s <> "" -> EnvResolve.str_replace s new s = new.
Proof.
  destruct s as [|c s']; [congruence|]. intros _. unfold EnvResolve.str_replace.
  change (EnvResolve.replace_fuel (S (String.length (String c s'))) (String c s') new (String c s'))
    with (if str_prefix (String c s') (String c s')
          then new ++ EnvResolve.replace_fuel (String.length (String c s')) (String c s') new
                        (EnvResolve.drop (String.length (String c s')) (String c s'))
          else String c (EnvResolve.replace_fuel (String.length (String c s')) (String c s') new s')).
  rewrite str_prefix_refl, drop_length.
  destruct (String.length (String c s')); apply str_app_nil_r.
Qed.

(** Environment resolution leaves a string without ['$'] unchanged, and
    turns a string that is exactly [${NAME}] (a non-empty name without
    ['}']) into the value of [NAME]. *)
Theorem resolve_str_cases (e : EnvResolve.env) :
  (forall s, ~ In "$"%char (list_ascii_of_string s) -> EnvResolve.resolve_str e s = s)
  /\ (forall n, n <> "" -> (forall c, In c (list_ascii_of_string n) -> c <> "}"%char) ->
      EnvResolve.resolve_str e (EnvResolve.placeholder n) = e n).
Proof.
  split.
  - intros s H. unfold EnvResolve.resolve_str, EnvResolve.findall.
    rewrite (findall_no_dollar s H). reflexivity.
  - intros n Hn H.
    assert (Hf : EnvResolve.findall (EnvResolve.placeholder n) = [n]).
    { unfold EnvResolve.findall, EnvResolve.placeholder. simpl EnvResolve.findall_from.
      rewrite (findall_name n H ""). simpl String.append.
      destruct (String.eqb n "") eqn:E; [apply String.eqb_eq in E; contradiction | reflexivity]. }
    unfold EnvResolve.resolve_str. rewrite Hf. simpl fold_left.
    apply str_replace_self. unfold EnvResolve.placeholder. discriminate.
Qed.

(* ------------------------------------------------------------------ *)
(** ** Properties of [_escape_identifier] *)

Lemma lstrip_char_snoc (c : ascii) (x : string) :
  lstrip_char c (x ++ String c EmptyString)
  = match lstrip_char c x with EmptyString => EmptyString | l => l ++ String c EmptyString end.
Proof.
  induction x as [|a x IH]; simpl.
  - rewrite Ascii.eqb_refl. reflexivity.
  - destruct (Ascii.eqb c a); [exact IH | reflexivity].
Qed.

Lemma strip_char_wrapped (c : ascii) (x : string) :
  strip_char c (String c (x ++ String c EmptyString)) = strip_char c x.
Proof.
  unfold strip_char. simpl lstrip_char at 2. rewrite Ascii.eqb_refl, lstrip_char_snoc.
  destruct (lstrip_char c x) as [|a l]; [reflexivity|].
  rewrite str_rev_snoc. simpl lstrip_char at 1. rewrite Ascii.eqb_refl. reflexivity.
Qed.

(** [_escape_identifier] is not injective: an identifier and the same
    identifier wrapped in double quotes escape to the same string. *)
Theorem escape_identifier_unquotes (x : string) :
  escape_identifier (String dq (x ++ String dq EmptyString)) = escape_identifier x.
Proof. unfold escape_identifier. rewrite strip_char_wrapped. reflexivity. Qed.

Lemma str_rev_app (x y : string) : str_rev (x ++ y) = (str_rev y ++ str_rev x)%string.
Proof.
  induction x as [|a x IH]; simpl.
  - rewrite str_app_nil_r. reflexivity.
  - rewrite IH, str_app_assoc. reflexivity.
Qed.

Lemma str_rev_involutive (x : string) : str_rev (str_rev x) = x.
Proof.
  induction x as [|a x IH]; simpl; [reflexivity|].
  rewrite str_rev_app, IH. reflexivity.
Qed.

Lemma strip_char_ends (q a b : ascii) (s : string) :
  Ascii.eqb q a = false -> Ascii.eqb q b = false ->
  strip_char q (String a (s ++ String b EmptyString)) = String a (s ++ String b EmptyString).
Proof.
  intros Ha Hb. unfold strip_char. simpl lstrip_char at 2. rewrite Ha.
  simpl str_rev at 2. rewrite str_rev_app. simpl str_rev at 2. simpl lstrip_char. rewrite Hb.
  simpl str_rev at 1. rewrite str_rev_app, str_rev_involutive. reflexivity.
Qed.

(** [_escape_identifier] of an identifier that neither starts nor ends
    with a quote wraps it in double quotes as it is: quotes inside it are
    not doubled, so an embedded double quote ends the quoted identifier
    early. *)
Theorem escape_identifier_plain (a b : ascii) (s : string) :
  a <> dq -> a <> sq -> b <> dq -> b <> sq ->
  escape_identifier (String a (s ++ String b EmptyString))
  = String dq (String a (s ++ String b (String dq EmptyString))).
Proof.
  intros H1 H2 H3 H4. unfold escape_identifier.
  rewrite !strip_char_ends; try (apply Ascii.eqb_neq; congruence).
  simpl. rewrite str_app_assoc. reflexivity.
Qed.

(* ------------------------------------------------------------------ *)
(** ** Instances of the properties above *)

Lemma cleanup_temporary_configs_count_witness :
  fst (cleanup_temporary_configs (fun _ => true)
         (mkCM [("a", [("_is_temporary", JBool true)]); ("b", sqlite_cfg);
                ("c", [("_is_temporary", JBool true)])] None))
  = (true, "成功清理 2 个临时配置: a, c").
Proof.
  rewrite (cleanup_temporary_configs_count (fun _ => true)
             (mkCM [("a", [("_is_temporary", JBool true)]); ("b", sqlite_cfg);
                    ("c", [("_is_temporary", JBool true)])] None)
             (fun _ => eq_refl)).
  - vm_compute. reflexivity.
  - simpl. repeat constructor; simpl; intuition discriminate.
Defined.

Lemma validate_database_config_sound_witness :
  exists cfg t fs,
    get_database_config st_demo "local" = Some cfg
    /\ a_get "type" cfg = Some (JStr t)
    /\ required_fields t = Some fs
    /\ (forall f, In f fs -> truthy (a_get_d f JNull cfg) = true)
    /\ ((t = "mysql" \/ t = "postgresql") -> has_username cfg = true).
Proof.
  apply (validate_database_config_sound st_demo "local" "配置验证通过"). vm_compute. reflexivity.
Defined.

Lemma execute_query_sql_result_witness :
  execute_query w_demo st_demo "local" "SELECT name FROM t" [] []
  = (Ok (mkQ true None [JObj [("name", JStr "t")]] (Some 1%Z) None),
     [EvOpen (mkConn "sqlite3" [("database", JStr "/data/app.db")]);
      EvClose (mkConn "sqlite3" [("database", JStr "/data/app.db")])]).
Proof.
  rewrite (execute_query_sql_result w_demo st_demo "local" "SELECT name FROM t" [] []
             sqlite_cfg "sqlite" (mkConn "sqlite3" [("database", JStr "/data/app.db")])
             eq_refl eq_refl (or_intror (or_intror eq_refl))).
  - vm_compute. reflexivity.
  - right. exists ["DROP"; "DELETE"; "UPDATE"; "INSERT"; "ALTER"; "CREATE"; "TRUNCATE"].
    split; vm_compute; reflexivity.
  - vm_compute. reflexivity.
Defined.

Lemma get_table_schema_sql_no_rows_witness :
  exists r, fst (get_table_schema w_demo st_demo (fun _ _ => Ok None) "local" "t" [])
            = Ok (SchemaQuery r) /\ q_data r = [].
Proof.
  exact (get_table_schema_sql_no_rows w_demo st_demo (fun _ _ => Ok None) "local" "t" []
           sqlite_cfg "sqlite" eq_refl eq_refl (or_intror eq_refl)).
Defined.

Lemma get_table_list_mysql_blocked_witness :
  get_table_list w_demo
    (mkCM [("m", [("type", JStr "mysql"); ("host", JStr "h"); ("username", JStr "u");
                  ("password", JStr "p"); ("database", JStr "product_updates")])] None)
    "m" [] = (Ok [], []).
Proof.
  apply (get_table_list_mysql_blocked w_demo
    (mkCM [("m", [("type", JStr "mysql"); ("host", JStr "h"); ("username", JStr "u");
                  ("password", JStr "p"); ("database", JStr "product_updates")])] None)
    "m" [] [("type", JStr "mysql"); ("host", JStr "h"); ("username", JStr "u");
            ("password", JStr "p"); ("database", JStr "product_updates")]
    ["DROP"; "DELETE"; "UPDATE"; "INSERT"; "ALTER"; "CREATE"; "TRUNCATE"] "UPDATE");
    vm_compute; reflexivity.
Defined.

Lemma test_connection_pg_probe_leak_witness :
  exists c, conn_driver c = "psycopg2"
    /\ test_connection
         (mkWorld true true true true (fun _ => true) (fun _ _ => Ok tt)
            (fun _ _ _ => Raise (OSError "server closed the connection unexpectedly"))
            (fun _ => Ok "v") (fun _ => Ok tt) (fun _ _ => Ok (mkQ true None [] None None)))
         st_pg "pg" []
       = (Ok (false, "连接失败 (使用驱动: psycopg2): "
                     ++ exn_str (OSError "server closed the connection unexpectedly")),
          ([] ++ [EvOpen c])%list).
Proof.
  apply (test_connection_pg_probe_leak
           (mkWorld true true true true (fun _ => true) (fun _ _ => Ok tt)
              (fun _ _ _ => Raise (OSError "server closed the connection unexpectedly"))
              (fun _ => Ok "v") (fun _ => Ok tt) (fun _ _ => Ok (mkQ true None [] None None)))
           st_pg "pg" [] pg_cfg (JStr "10.255.255.1") (JStr "p") (JStr "d"));
    try (vm_compute; reflexivity); intros; reflexivity.
Defined.

Lemma update_api_config_merge_witness :
  let (ok, a') := ApiConfig.update_api_config (fun _ => true)
                    [("weather", [("base_url", JStr "https://a"); ("enabled", JBool true)])]
                    "weather" [("base_url", JStr "https://b"); ("timeout", JNum 5)] in
  match a_get "weather" [("weather", [("base_url", JStr "https://a"); ("enabled", JBool true)])] with
  | None => ok = false /\ a' = [("weather", [("base_url", JStr "https://a"); ("enabled", JBool true)])]
  | Some old =>
      ok = true
      /\ (forall n, n <> "weather" -> a_get n a' = a_get n [("weather", [("base_url", JStr "https://a"); ("enabled", JBool true)])])
      /\ exists upd, a_get "weather" a' = Some upd
                     /\ forall k, a_get k upd = match a_get k [("base_url", JStr "https://b"); ("timeout", JNum 5)] with
                                                | Some v => Some v
                                                | None => a_get k old
                                                end
  end.
Proof.
  apply (update_api_config_merge (fun _ => true)
           [("weather", [("base_url", JStr "https://a"); ("enabled", JBool true)])]
           "weather" [("base_url", JStr "https://b"); ("timeout", JNum 5)]).
  repeat constructor; simpl; intuition discriminate.
Defined.

Lemma escape_identifier_plain_witness :
  escape_identifier (String "t"%char (String dq " ; DROP TABLE users; --x"))
  = String dq (String "t"%char (String dq (" ; DROP TABLE users; --x" ++ String dq EmptyString))).
Proof.
  apply (escape_identifier_plain "t"%char "x"%char (String dq " ; DROP TABLE users; --"));
    unfold dq, sq; discriminate.
Defined.
